(** * clouddatastore: the bridges between the wrapper API and the driver

    A shallow embedding of the Cloud Datastore bridge of the datastore
    wrapper (package [clouddatastore]): the Original-Store Bridge
    ([originalClientBridgeImpl]), the Transaction Bridge
    ([originalTransactionBridgeImpl]), the Iterator Bridge
    ([originalIteratorBridgeImpl]) and the transaction facade
    ([transactionImpl]).

    Go state is passed explicitly.  A method that mutates a slice it was
    handed returns the slice's new contents next to its Go results; the
    remote store is a driver state threaded through a small state monad
    that can also panic, and every call that reaches the driver is
    recorded in a trace. *)

From Stdlib Require Import ZArith String List Lia.
From stdpp Require Import base option list strings.

Open Scope string_scope.
Open Scope list_scope.
Set Warnings "-register-all".

(** ** Data model *)

(** [w.Key]: a kind, a numeric ID or a string name, and an optional parent
    (the ancestor path). *)
Inductive Key : Type :=
  | MkKey (kind : string) (id : Z) (name : string) (parent : option Key).

(** [*datastore.Key], the driver's key. *)
Inductive OKey : Type :=
  | MkOKey (okind : string) (oid : Z) (oname : string) (oparent : option OKey).

(** Property values, on the wrapper side and on the driver side. *)
Inductive PValue : Type :=
  | VInt (z : Z) | VStr (s : string) | VBool (b : bool) | VKey (k : Key).

Inductive OPValue : Type :=
  | OVInt (z : Z) | OVStr (s : string) | OVBool (b : bool) | OVKey (k : OKey).

Record Property : Type :=
  { p_Name : string; p_Value : PValue; p_NoIndex : bool }.

Record OProperty : Type :=
  { op_Name : string; op_Value : OPValue; op_NoIndex : bool }.

(** [w.PropertyList] and [datastore.PropertyList]: one record's fields. *)
Definition PropertyList : Type := list Property.
Definition OPropertyList : Type := list OProperty.

(** [*datastore.PendingKey] and its wrapper. *)
Record OPendingKey : Type := { opk_id : Z }.
Record PendingKey : Type := { pk_orig : OPendingKey }.

(** [*datastore.Commit] and [commitImpl]. *)
Record OCommit : Type := { oc_keys : list (OPendingKey * OKey) }.
Record commitImpl : Type := { commit : option OCommit }.

(** Errors of the driver.  [OErrDone] is [iterator.Done]. *)
Inductive oerror : Type :=
  | OErrNoSuchEntity
  | OErrEntityExists
  | OErrDone
  | OMultiError (slots : list (option oerror))
  | OErrOther (msg : string).

(** Errors of the wrapper.  A Go [error] is an [option werror], with [None]
    for [nil]; [ErrNew s] is [errors.New(s)], [ErrOpaque] an unrecognized
    driver error passed through. *)
Inductive werror : Type :=
  | ErrNoSuchEntity
  | ErrEntityExists
  | ErrDone
  | MultiError (slots : list (option werror))
  | ErrNew (msg : string)
  | ErrOpaque (orig : oerror).

Definition error : Type := option werror.

(** Handles to objects that live in the driver. *)
Definition ClientHandle : Type := nat.
Definition TxHandle : Type := nat.
Definition CursorHandle : Type := nat.

(** A value passed as [interface{}] to the batch operations: an entity,
    given by its fields, or a slice of such values. *)
Inductive GoValue : Type :=
  | GoEntity (fields : PropertyList)
  | GoSlice (elems : list GoValue).

(** ** The request-scoped context

    A [context.Context] is a chain of values; the innermost one is first.
    The key type [contextTransaction] is private to the package, so an
    entry under it always holds a [*datastore.Transaction]. *)
Inductive ctxEntry : Type :=
  | contextTransaction (tx : TxHandle)
  | contextOther (key : string) (val : string).

Definition Context : Type := list ctxEntry.

(** [ctx.Value(contextTransaction{})] *)
Fixpoint Value_contextTransaction (ctx : Context) : option TxHandle :=
  match ctx with
  | [] => None
  | contextTransaction tx :: _ => Some tx
  | contextOther _ _ :: parent => Value_contextTransaction parent
  end.

(** [getTx]: the driver transaction of the context, [None] for the nil
    pointer. *)
Definition getTx (ctx : Context) : option TxHandle :=
  let tx := Value_contextTransaction ctx in
  match tx with
  | Some t => Some t
  | None => None
  end.

(** ** Key/Record Translator *)

(** Modelled from the spec: [toOriginalKey] is missing from the sources;
    section 4.1 gives it as a pure conversion of a key to the driver's
    representation, and section 3 gives a key's parts. *)
Fixpoint toOriginalKey (k : Key) : OKey :=
  match k with
  | MkKey kind id name parent =>
      MkOKey kind id name
        (match parent with Some p => Some (toOriginalKey p) | None => None end)
  end.

(** Modelled from the spec: [toWrapperKey] is missing from the sources;
    section 4.1 gives it as the inverse of [toOriginalKey]. *)
Fixpoint toWrapperKey (k : OKey) : Key :=
  match k with
  | MkOKey kind id name parent =>
      MkKey kind id name
        (match parent with Some p => Some (toWrapperKey p) | None => None end)
  end.

(** Modelled from the spec: [toOriginalKeys] and [toWrapperKeys] are
    missing from the sources; section 4.1 gives them as the conversions
    of a batch, slot by slot. *)
Definition toOriginalKeys (keys : list Key) : list OKey :=
  map toOriginalKey keys.

Definition toWrapperKeys (keys : list OKey) : list Key :=
  map toWrapperKey keys.

Definition toOriginalValue (v : PValue) : OPValue :=
  match v with
  | VInt z => OVInt z
  | VStr s => OVStr s
  | VBool b => OVBool b
  | VKey k => OVKey (toOriginalKey k)
  end.

Definition toWrapperValue (v : OPValue) : PValue :=
  match v with
  | OVInt z => VInt z
  | OVStr s => VStr s
  | OVBool b => VBool b
  | OVKey k => VKey (toWrapperKey k)
  end.

Definition toOriginalProperty (p : Property) : OProperty :=
  {| op_Name := p_Name p;
     op_Value := toOriginalValue (p_Value p);
     op_NoIndex := p_NoIndex p |}.

Definition toWrapperProperty (p : OProperty) : Property :=
  {| p_Name := op_Name p;
     p_Value := toWrapperValue (op_Value p);
     p_NoIndex := op_NoIndex p |}.

(** Modelled from the spec: [toOriginalPropertyList],
    [toWrapperPropertyList] and their batch forms are missing from the
    sources; section 4.1 gives the analogous two-way conversion for
    property lists. *)
Definition toOriginalPropertyList (ps : PropertyList) : OPropertyList :=
  map toOriginalProperty ps.

Definition toWrapperPropertyList (ps : OPropertyList) : PropertyList :=
  map toWrapperProperty ps.

Definition toOriginalPropertyListList (psList : list PropertyList)
  : list OPropertyList :=
  map toOriginalPropertyList psList.

Definition toWrapperPropertyListList (psList : list OPropertyList)
  : list PropertyList :=
  map toWrapperPropertyList psList.

(** Modelled from the spec: [toWrapperPendingKeys] and
    [toOriginalPendingKey] are missing from the sources; section 4.1
    gives the same two-way conversion for pending keys. *)
Definition toWrapperPendingKey (pk : OPendingKey) : PendingKey :=
  {| pk_orig := pk |}.

Definition toOriginalPendingKey (pk : PendingKey) : OPendingKey :=
  pk_orig pk.

Definition toWrapperPendingKeys (pks : list OPendingKey) : list PendingKey :=
  map toWrapperPendingKey pks.

(** ** Error Normalizer *)

(** Modelled from the spec: [toWrapperError] is missing from the sources;
    section 4.2 maps not-found to [ErrNoSuchEntity], an already-exists
    conflict to [ErrEntityExists], a multi error to a [MultiError] of the
    same length with each cause mapped, and passes anything else through
    as an opaque wrapped error; section 4.6 maps the driver's "no more
    results" to [ErrDone]. *)
Fixpoint toWrapperError (err : oerror) : werror :=
  match err with
  | OErrNoSuchEntity => ErrNoSuchEntity
  | OErrEntityExists => ErrEntityExists
  | OErrDone => ErrDone
  | OMultiError slots =>
      MultiError
        (map (fun slot =>
                match slot with
                | Some e => Some (toWrapperError e)
                | None => None
                end) slots)
  | OErrOther msg => ErrOpaque (OErrOther msg)
  end.

(** ** Effects: driver state, trace of driver calls, panics *)

Inductive panic : Type :=
  | NilDereference
  | IndexOutOfRange
  | TypeAssertion.

Inductive outcome (A : Type) : Type :=
  | Ret (a : A)
  | Panic (p : panic).

Arguments Ret {A} a.
Arguments Panic {A} p.

(** One entry per call that reaches the driver. *)
Inductive Call : Type :=
  | CallClientPutMulti (c : ClientHandle)
  | CallClientGetMulti (c : ClientHandle)
  | CallClientDeleteMulti (c : ClientHandle)
  | CallClientRun (c : ClientHandle)
  | CallClientGetAll (c : ClientHandle)
  | CallTxPutMulti (t : TxHandle)
  | CallTxGetMulti (t : TxHandle)
  | CallTxDeleteMulti (t : TxHandle)
  | CallTxCommit (t : TxHandle)
  | CallTxRollback (t : TxHandle)
  | CallCursorNext (c : CursorHandle).

(** [*datastore.Query]; its construction is outside the bridges. *)
Record OQuery : Type := { oq_kind : string }.

(** The driver, an external collaborator: its state and its operations.
    An operation that fills a slice it is given returns what it wrote. *)
Record Driver : Type :=
  { DState : Type;
    client_PutMulti :
      ClientHandle -> Context -> list OKey -> list OPropertyList ->
      DState -> list OKey * option oerror * DState;
    client_GetMulti :
      ClientHandle -> Context -> list OKey -> list OPropertyList ->
      DState -> list OPropertyList * option oerror * DState;
    client_DeleteMulti :
      ClientHandle -> Context -> list OKey ->
      DState -> option oerror * DState;
    client_Run :
      ClientHandle -> Context -> OQuery -> DState -> CursorHandle * DState;
    client_GetAll :
      ClientHandle -> Context -> OQuery -> list OPropertyList ->
      DState -> list OKey * list OPropertyList * option oerror * DState;
    tx_PutMulti :
      TxHandle -> list OKey -> list OPropertyList ->
      DState -> list OPendingKey * option oerror * DState;
    tx_GetMulti :
      TxHandle -> list OKey -> list OPropertyList ->
      DState -> list OPropertyList * option oerror * DState;
    tx_DeleteMulti :
      TxHandle -> list OKey -> DState -> option oerror * DState;
    tx_Commit :
      TxHandle -> DState -> option OCommit * option oerror * DState;
    tx_Rollback :
      TxHandle -> DState -> option oerror * DState;
    cursor_Next :
      CursorHandle -> OPropertyList ->
      DState -> option OKey * OPropertyList * option oerror * DState }.

(** ** Go slices *)

(** What a callee that was handed a slice leaves in it: it writes through
    the slice header it received, so the caller's slice keeps its length
    whatever the callee wrote. *)
Definition fill_in_place {A : Type} (old written : list A) : list A :=
  take (length old) written ++ drop (length written) old.

(** [for idx, wPs := range wPss { psList[idx] = wPs }], starting at index
    [idx]; an index past the end of [psList] panics. *)
Fixpoint write_back {A : Type} (idx : nat) (wPss : list A) (psList : list A)
  : outcome (list A) :=
  match wPss with
  | [] => Ret psList
  | wPs :: rest =>
      if decide (idx < length psList)
      then write_back (S idx) rest (<[idx := wPs]> psList)
      else Panic IndexOutOfRange
  end.

(** [s[0]] *)
Definition index0 {A : Type} (s : list A) : outcome A :=
  match s with
  | x :: _ => Ret x
  | [] => Panic IndexOutOfRange
  end.

Section Bridges.

Variable drv : Driver.

(** The world a call runs in: the driver's state and the driver calls made
    so far, oldest first. *)
Record World : Type :=
  { dstate : DState drv;
    trace : list Call }.

(** A computation: it returns or panics, and leaves a world. *)
Definition M (A : Type) : Type := World -> outcome A * World.

Definition ret {A : Type} (a : A) : M A := fun w => (Ret a, w).

Definition bind {A B : Type} (m : M A) (k : A -> M B) : M B :=
  fun w =>
    match m w with
    | (Ret a, w') => k a w'
    | (Panic p, w') => (Panic p, w')
    end.

Definition throw {A : Type} (p : panic) : M A := fun w => (Panic p, w).

Definition lift {A : Type} (o : outcome A) : M A := fun w => (o, w).

Notation "'let*' x ':=' m 'in' k" :=
  (bind m (fun x => k))
  (at level 10, x pattern, m at level 100, k at level 200).

(** A call into the driver: it is logged, then the driver runs on its
    state. *)
Definition driver_call {A : Type} (c : Call) (f : DState drv -> A * DState drv)
  : M A :=
  fun w =>
    let '(a, s) := f (dstate w) in
    (Ret a, {| dstate := s; trace := trace w ++ [c] |}).

(** A method call on a [*datastore.Transaction]: the nil pointer is
    dereferenced by the driver's method. *)
Definition on_tx {A : Type} (baseTx : option TxHandle) (f : TxHandle -> M A)
  : M A :=
  match baseTx with
  | Some t => f t
  | None => throw NilDereference
  end.

(** ** The client and its cache layers *)

(** [w.CacheInfo]: the request context and the client, which a cache layer
    uses for scoping only. *)
Record CacheInfo : Type :=
  { ci_Context : Context;
    ci_Client : ClientHandle }.

(** Modelled from the spec: the cache layers ([w.CacheStrategy]) are
    missing from the sources; section 6 gives a layer hooks keyed by a
    [CacheInfo] and a key batch, and the declaration whether it is
    transaction-aware; section 9 gives the layers as an ordered pipeline
    of stages, so the read hook receives the rest of the read path as its
    first argument.  [cs_Invalidate] drops a key batch from the layer. *)
Record CacheStrategy : Type :=
  { cs_txAware : bool;
    cs_GetMultiWithTx :
      (list Key -> list PropertyList -> M (list PropertyList * error)) ->
      CacheInfo -> list Key -> list PropertyList ->
      M (list PropertyList * error);
    cs_Invalidate : CacheInfo -> list Key -> M error }.

(** [datastoreImpl]: the fields the bridges read. *)
Record datastoreImpl : Type :=
  { ctx : Context;
    client : ClientHandle;
    cacheStrategies : list CacheStrategy }.

Record transactionImpl : Type :=
  { tx_client : datastoreImpl }.

Record queryImpl : Type :=
  { q : OQuery;
    q_firstError : error }.

(** [w.Query]: the package's own [*queryImpl], or another implementation. *)
Inductive Query : Type :=
  | QueryImpl (qImpl : queryImpl)
  | QueryForeign.

Record iteratorImpl : Type :=
  { it_client : datastoreImpl;
    it_q : queryImpl;
    t : CursorHandle;
    firstError : error }.

(** [w.Iterator]: the package's own [*iteratorImpl], or another
    implementation. *)
Inductive Iterator : Type :=
  | IteratorImpl (iterImpl : iteratorImpl)
  | IteratorForeign.

(** ** Original-Store Bridge *)

Record originalClientBridgeImpl : Type :=
  { d : datastoreImpl }.

Definition originalClientBridgeImpl_PutMulti
    (ocb : originalClientBridgeImpl) (ctx0 : Context)
    (keys : list Key) (psList : list PropertyList)
  : M (list Key * error) :=
  let origKeys := toOriginalKeys keys in
  let origPss := toOriginalPropertyListList psList in
  let* (origKeys', err) :=
    driver_call (CallClientPutMulti (client (d ocb)))
      (client_PutMulti drv (client (d ocb)) ctx0 origKeys origPss) in
  match err with
  | Some e => ret ([], Some (toWrapperError e))
  | None => ret (toWrapperKeys origKeys', None)
  end.

(** The first component is [psList] as the call leaves it. *)
Definition originalClientBridgeImpl_GetMulti
    (ocb : originalClientBridgeImpl) (ctx0 : Context)
    (keys : list Key) (psList : list PropertyList)
  : M (list PropertyList * error) :=
  let origKeys := toOriginalKeys keys in
  let origPss := toOriginalPropertyListList psList in
  let* (written, err) :=
    driver_call (CallClientGetMulti (client (d ocb)))
      (client_GetMulti drv (client (d ocb)) ctx0 origKeys origPss) in
  let origPss := fill_in_place origPss written in
  match err with
  | Some e => ret (psList, Some (toWrapperError e))
  | None =>
      let wPss := toWrapperPropertyListList origPss in
      let* psList' := lift (write_back 0 wPss psList) in
      ret (psList', None)
  end.

Definition originalClientBridgeImpl_DeleteMulti
    (ocb : originalClientBridgeImpl) (ctx0 : Context) (keys : list Key)
  : M error :=
  let origKeys := toOriginalKeys keys in
  let* err :=
    driver_call (CallClientDeleteMulti (client (d ocb)))
      (client_DeleteMulti drv (client (d ocb)) ctx0 origKeys) in
  match err with
  | Some e => ret (Some (toWrapperError e))
  | None => ret None
  end.

Definition originalClientBridgeImpl_Run
    (ocb : originalClientBridgeImpl) (ctx0 : Context) (q0 : Query)
  : M Iterator :=
  match q0 with
  | QueryForeign => throw TypeAssertion
  | QueryImpl qImpl =>
      let* iter :=
        driver_call (CallClientRun (client (d ocb)))
          (client_Run drv (client (d ocb)) ctx0 (q qImpl)) in
      ret (IteratorImpl
             {| it_client := d ocb; it_q := qImpl; t := iter;
                firstError := q_firstError qImpl |})
  end.

(** The second component is [*psList] as the call leaves it. *)
Definition originalClientBridgeImpl_GetAll
    (ocb : originalClientBridgeImpl) (ctx0 : Context) (q0 : Query)
    (psList : list PropertyList)
  : M (list Key * list PropertyList * error) :=
  match q0 with
  | QueryForeign => throw TypeAssertion
  | QueryImpl qImpl =>
      let origPss := toOriginalPropertyListList psList in
      let* (origKeys, origPss', err) :=
        driver_call (CallClientGetAll (client (d ocb)))
          (client_GetAll drv (client (d ocb)) ctx0 (q qImpl) origPss) in
      match err with
      | Some e => ret ([], psList, Some (toWrapperError e))
      | None =>
          let wKeys := toWrapperKeys origKeys in
          ret (wKeys, toWrapperPropertyListList origPss', None)
      end
  end.

(** ** Transaction Bridge *)

Record originalTransactionBridgeImpl : Type :=
  { tx : transactionImpl }.

Definition unexpected_context : werror := ErrNew "unexpected context".

Definition originalTransactionBridgeImpl_PutMulti
    (otb : originalTransactionBridgeImpl)
    (keys : list Key) (psList : list PropertyList)
  : M (list PendingKey * error) :=
  let baseTx := getTx (ctx (tx_client (tx otb))) in
  match baseTx with
  | None => ret ([], Some unexpected_context)
  | Some _ =>
      let origKeys := toOriginalKeys keys in
      let origPss := toOriginalPropertyListList psList in
      let* (origPKeys, err) :=
        on_tx baseTx (fun h =>
          driver_call (CallTxPutMulti h) (tx_PutMulti drv h origKeys origPss)) in
      match err with
      | Some e => ret ([], Some (toWrapperError e))
      | None =>
          let wPKeys := toWrapperPendingKeys origPKeys in
          ret (wPKeys, None)
      end
  end.

(** The first component is [psList] as the call leaves it. *)
Definition originalTransactionBridgeImpl_GetMulti
    (otb : originalTransactionBridgeImpl)
    (keys : list Key) (psList : list PropertyList)
  : M (list PropertyList * error) :=
  let baseTx := getTx (ctx (tx_client (tx otb))) in
  match baseTx with
  | None => ret (psList, Some unexpected_context)
  | Some _ =>
      let origKeys := toOriginalKeys keys in
      let origPss := toOriginalPropertyListList psList in
      let* (written, err) :=
        on_tx baseTx (fun h =>
          driver_call (CallTxGetMulti h) (tx_GetMulti drv h origKeys origPss)) in
      let origPss := fill_in_place origPss written in
      match err with
      | Some e => ret (psList, Some (toWrapperError e))
      | None =>
          let wPss := toWrapperPropertyListList origPss in
          let* psList' := lift (write_back 0 wPss psList) in
          ret (psList', None)
      end
  end.

Definition originalTransactionBridgeImpl_DeleteMulti
    (otb : originalTransactionBridgeImpl) (keys : list Key)
  : M error :=
  let baseTx := getTx (ctx (tx_client (tx otb))) in
  match baseTx with
  | None => ret (Some unexpected_context)
  | Some _ =>
      let origKeys := toOriginalKeys keys in
      let* err :=
        on_tx baseTx (fun h =>
          driver_call (CallTxDeleteMulti h) (tx_DeleteMulti drv h origKeys)) in
      match err with
      | Some e => ret (Some (toWrapperError e))
      | None => ret None
      end
  end.

(** ** Iterator Bridge *)

(** [originalIteratorBridgeImpl] has no field, so [Next] takes no
    receiver here.  The cursor is handed [origPs] by value.  The results
    are the key (nil on failure), [*ps] as the call leaves it, and the
    error. *)
Definition originalIteratorBridgeImpl_Next
    (iter : Iterator) (ps : PropertyList)
  : M (option Key * PropertyList * error) :=
  match iter with
  | IteratorForeign => throw TypeAssertion
  | IteratorImpl iterImpl =>
      let origPs := toOriginalPropertyList ps in
      let* (origKey, written, err) :=
        driver_call (CallCursorNext (t iterImpl))
          (cursor_Next drv (t iterImpl) origPs) in
      let origPs := fill_in_place origPs written in
      match err with
      | Some e => ret (None, ps, Some (toWrapperError e))
      | None =>
          ret (option_map toWrapperKey origKey,
               toWrapperPropertyList origPs, None)
      end
  end.

(** ** Package [shared] *)

(** The batch drivers of package [shared], which turn the caller's
    entities into property lists, run the function they are given and
    turn the results back.  They are not in the sources and the spec does
    not describe them: they are taken as given. *)
Record SharedOps : Type :=
  { GetMultiOps :
      Context -> list Key -> GoValue ->
      (list Key -> list PropertyList -> M (list PropertyList * error)) ->
      M error;
    PutMultiOps :
      Context -> list Key -> GoValue ->
      (list Key -> list PropertyList ->
       M (list Key * list PendingKey * error)) ->
      M (list Key * list PendingKey * error);
    DeleteMultiOps :
      Context -> list Key -> (list Key -> M error) -> M error }.

Variable shared : SharedOps.

Record CacheBridge : Type :=
  { cb_ocb : originalClientBridgeImpl;
    cb_otb : originalTransactionBridgeImpl;
    cb_cs : list CacheStrategy }.

(** Modelled from the spec: [shared.NewCacheBridge] is missing from the
    sources; section 4.5 has the Cache Bridge hold both bridges and the
    configured cache layers in their order. *)
Definition NewCacheBridge (info : CacheInfo)
    (ocb : originalClientBridgeImpl) (otb : originalTransactionBridgeImpl)
    (oib : option unit) (cs : list CacheStrategy) : CacheBridge :=
  {| cb_ocb := ocb; cb_otb := otb; cb_cs := cs |}.

(** The read path inside a transaction, layer by layer. *)
Fixpoint read_path_tx (otb : originalTransactionBridgeImpl)
    (cs : list CacheStrategy) (info : CacheInfo)
  : list Key -> list PropertyList -> M (list PropertyList * error) :=
  match cs with
  | [] => originalTransactionBridgeImpl_GetMulti otb
  | c :: rest =>
      if cs_txAware c
      then cs_GetMultiWithTx c (read_path_tx otb rest info) info
      else read_path_tx otb rest info
  end.

(** Modelled from the spec: [CacheBridge.GetMultiWithTx] is missing from
    the sources; section 4.5 (a): inside a transaction, bypass any cache
    layer that is not transaction-aware and read straight through the
    Transaction Bridge. *)
Definition GetMultiWithTx (cb : CacheBridge) (info : CacheInfo)
  : list Key -> list PropertyList -> M (list PropertyList * error) :=
  read_path_tx (cb_otb cb) (cb_cs cb) info.

(** Every layer drops the keys, in order; a layer's failure is not the
    operation's. *)
Fixpoint invalidate_all (cs : list CacheStrategy) (info : CacheInfo)
    (keys : list Key) : M unit :=
  match cs with
  | [] => ret tt
  | c :: rest =>
      let* _ := cs_Invalidate c info keys in
      invalidate_all rest info keys
  end.

(** Modelled from the spec: [CacheBridge.PutMultiWithTx] is missing from
    the sources; section 4.5: a write invalidates every configured layer
    for the affected keys after the store write succeeded, and a failed
    store write returns its error and leaves the caches untouched. *)
Definition PutMultiWithTx (cb : CacheBridge) (info : CacheInfo)
    (keys : list Key) (psList : list PropertyList)
  : M (list PendingKey * error) :=
  let* (pKeys, err) :=
    originalTransactionBridgeImpl_PutMulti (cb_otb cb) keys psList in
  match err with
  | Some e => ret (pKeys, Some e)
  | None =>
      let* _ := invalidate_all (cb_cs cb) info keys in
      ret (pKeys, None)
  end.

(** Modelled from the spec: [CacheBridge.DeleteMultiWithTx] is missing
    from the sources; section 4.5: a delete has the same
    invalidate-after-success ordering as a write. *)
Definition DeleteMultiWithTx (cb : CacheBridge) (info : CacheInfo)
    (keys : list Key) : M error :=
  let* err := originalTransactionBridgeImpl_DeleteMulti (cb_otb cb) keys in
  match err with
  | Some e => ret (Some e)
  | None =>
      let* _ := invalidate_all (cb_cs cb) info keys in
      ret None
  end.

(** ** The transaction facade *)

Definition deref {A : Type} (p : option A) : M A :=
  match p with
  | Some a => ret a
  | None => throw NilDereference
  end.

Definition transactionImpl_cacheInfo (tx0 : transactionImpl) : CacheInfo :=
  {| ci_Context := ctx (tx_client tx0);
     ci_Client := client (tx_client tx0) |}.

Definition transactionImpl_cacheBridge (tx0 : transactionImpl) : CacheBridge :=
  NewCacheBridge (transactionImpl_cacheInfo tx0)
    {| d := tx_client tx0 |} {| tx := tx0 |} None
    (cacheStrategies (tx_client tx0)).

(** The function [GetMulti] hands to [shared.GetMultiOps]. *)
Definition transactionImpl_GetMulti_func (tx0 : transactionImpl)
    (keys : list Key) (dst : list PropertyList)
  : M (list PropertyList * error) :=
  let cacheInfo := transactionImpl_cacheInfo tx0 in
  let cb := transactionImpl_cacheBridge tx0 in
  GetMultiWithTx cb cacheInfo keys dst.

Definition transactionImpl_GetMulti (tx0 : transactionImpl)
    (keys : list Key) (dst : GoValue) : M error :=
  GetMultiOps shared (ctx (tx_client tx0)) keys dst
    (transactionImpl_GetMulti_func tx0).

Definition transactionImpl_Get (tx0 : transactionImpl)
    (key : Key) (dst : GoValue) : M error :=
  let* err := transactionImpl_GetMulti tx0 [key] (GoSlice [dst]) in
  match err with
  | Some (MultiError merr) => lift (index0 merr)
  | Some e => ret (Some e)
  | None => ret None
  end.

(** The function [PutMulti] hands to [shared.PutMultiOps]; the first
    result is the slot of the concrete keys. *)
Definition transactionImpl_PutMulti_func (tx0 : transactionImpl)
    (keys : list Key) (src : list PropertyList)
  : M (list Key * list PendingKey * error) :=
  let cacheInfo := transactionImpl_cacheInfo tx0 in
  let cb := transactionImpl_cacheBridge tx0 in
  let* (pKeys, err) := PutMultiWithTx cb cacheInfo keys src in
  ret ([], pKeys, err).

Definition transactionImpl_PutMulti (tx0 : transactionImpl)
    (keys : list Key) (src : GoValue) : M (list PendingKey * error) :=
  let* (_, pKeys, err) :=
    PutMultiOps shared (ctx (tx_client tx0)) keys src
      (transactionImpl_PutMulti_func tx0) in
  match err with
  | Some e => ret ([], Some e)
  | None => ret (pKeys, None)
  end.

(** The first result is the pending key, [None] for the nil interface. *)
Definition transactionImpl_Put (tx0 : transactionImpl)
    (key : Key) (src : GoValue) : M (option PendingKey * error) :=
  let* (pKeys, err) := transactionImpl_PutMulti tx0 [key] (GoSlice [src]) in
  match err with
  | Some (MultiError merr) =>
      let* e := lift (index0 merr) in
      ret (None, e)
  | Some e => ret (None, Some e)
  | None =>
      let* pKey := lift (index0 pKeys) in
      ret (Some pKey, None)
  end.

(** The function [DeleteMulti] hands to [shared.DeleteMultiOps]. *)
Definition transactionImpl_DeleteMulti_func (tx0 : transactionImpl)
    (keys : list Key) : M error :=
  let cacheInfo := transactionImpl_cacheInfo tx0 in
  let cb := transactionImpl_cacheBridge tx0 in
  DeleteMultiWithTx cb cacheInfo keys.

Definition transactionImpl_DeleteMulti (tx0 : transactionImpl)
    (keys : list Key) : M error :=
  DeleteMultiOps shared (ctx (tx_client tx0)) keys
    (transactionImpl_DeleteMulti_func tx0).

Definition transactionImpl_Delete (tx0 : transactionImpl) (key : Key)
  : M error :=
  let* err := transactionImpl_DeleteMulti tx0 [key] in
  match err with
  | Some (MultiError merr) => lift (index0 merr)
  | Some e => ret (Some e)
  | None => ret None
  end.

(** [Commit] and [Rollback] take the receiver as the pointer it is: both
    read [tx.client.ctx] first, and [Rollback] then compares the receiver
    itself with nil. *)
Definition transactionImpl_Commit (tx0 : option transactionImpl)
  : M (option commitImpl * error) :=
  let* this := deref tx0 in
  let baseTx := getTx (ctx (tx_client this)) in
  match baseTx with
  | None => ret (None, None)
  | Some _ =>
      let* (commit0, err) :=
        on_tx baseTx (fun h =>
          driver_call (CallTxCommit h) (tx_Commit drv h)) in
      match err with
      | Some e => ret (None, Some (toWrapperError e))
      | None => ret (Some {| commit := commit0 |}, None)
      end
  end.

Definition transactionImpl_Rollback (tx0 : option transactionImpl)
  : M error :=
  let* this := deref tx0 in
  let baseTx := getTx (ctx (tx_client this)) in
  match tx0 with
  | None => ret None
  | Some _ =>
      let* err :=
        on_tx baseTx (fun h =>
          driver_call (CallTxRollback h) (tx_Rollback drv h)) in
      match err with
      | Some e => ret (Some (toWrapperError e))
      | None => ret None
      end
  end.

(** ** Sequences of calls on an iterator *)

(** [Next] called once per buffer of [bufs], in order: the outcomes of the
    calls, up to the first panic, and the world they leave. *)
Fixpoint Next_calls (iter : Iterator) (bufs : list PropertyList) (w : World)
  : list (outcome (option Key * PropertyList * error)) * World :=
  match bufs with
  | [] => ([], w)
  | ps :: rest =>
      match originalIteratorBridgeImpl_Next iter ps w with
      | (Ret r, w') =>
          let '(rs, w'') := Next_calls iter rest w' in
          (Ret r :: rs, w'')
      | (Panic p, w') => ([Panic p], w')
      end
  end.

End Bridges.

Arguments Build_World {drv} dstate trace.
Arguments dstate {drv} w.
Arguments trace {drv} w.
Arguments ret {drv A} a w.
Arguments bind {drv A B} m k w.
Arguments throw {drv A} p w.
Arguments lift {drv A} o w.
Arguments deref {drv A} p w.
Arguments driver_call {drv A} c f w.
Arguments on_tx {drv A} baseTx f w.
Arguments cs_txAware {drv} c.
Arguments cs_GetMultiWithTx {drv} c next info keys psList w.
Arguments cs_Invalidate {drv} c info keys w.
Arguments Build_datastoreImpl {drv} ctx client cacheStrategies.
Arguments ctx {drv} d.
Arguments client {drv} d.
Arguments cacheStrategies {drv} d.
Arguments Build_transactionImpl {drv} tx_client.
Arguments tx_client {drv} t.
Arguments Build_iteratorImpl {drv} it_client it_q t firstError.
Arguments it_client {drv} i.
Arguments it_q {drv} i.
Arguments t {drv} i.
Arguments firstError {drv} i.
Arguments IteratorImpl {drv} iterImpl.
Arguments IteratorForeign {drv}.
Arguments Build_originalClientBridgeImpl {drv} d.
Arguments d {drv} o.
Arguments Build_originalTransactionBridgeImpl {drv} tx.
Arguments tx {drv} o.
Arguments originalClientBridgeImpl_PutMulti {drv} ocb ctx0 keys psList w.
Arguments originalClientBridgeImpl_GetMulti {drv} ocb ctx0 keys psList w.
Arguments originalClientBridgeImpl_DeleteMulti {drv} ocb ctx0 keys w.
Arguments originalClientBridgeImpl_Run {drv} ocb ctx0 q0 w.
Arguments originalClientBridgeImpl_GetAll {drv} ocb ctx0 q0 psList w.
Arguments originalTransactionBridgeImpl_PutMulti {drv} otb keys psList w.
Arguments originalTransactionBridgeImpl_GetMulti {drv} otb keys psList w.
Arguments originalTransactionBridgeImpl_DeleteMulti {drv} otb keys w.
Arguments originalIteratorBridgeImpl_Next {drv} iter ps w.
Arguments GetMultiOps {drv} s ctx0 keys dst f w.
Arguments PutMultiOps {drv} s ctx0 keys src f w.
Arguments DeleteMultiOps {drv} s ctx0 keys f w.
Arguments Build_CacheBridge {drv} cb_ocb cb_otb cb_cs.
Arguments cb_ocb {drv} c.
Arguments cb_otb {drv} c.
Arguments cb_cs {drv} c.
Arguments NewCacheBridge {drv} info ocb otb oib cs.
Arguments read_path_tx {drv} otb cs info keys psList w.
Arguments GetMultiWithTx {drv} cb info keys psList w.
Arguments invalidate_all {drv} cs info keys w.
Arguments PutMultiWithTx {drv} cb info keys psList w.
Arguments DeleteMultiWithTx {drv} cb info keys w.
Arguments transactionImpl_cacheInfo {drv} tx0.
Arguments transactionImpl_cacheBridge {drv} tx0.
Arguments transactionImpl_GetMulti_func {drv} tx0 keys dst w.
Arguments transactionImpl_GetMulti {drv} shared tx0 keys dst w.
Arguments transactionImpl_Get {drv} shared tx0 key dst w.
Arguments transactionImpl_PutMulti_func {drv} tx0 keys src w.
Arguments transactionImpl_PutMulti {drv} shared tx0 keys src w.
Arguments transactionImpl_Put {drv} shared tx0 key src w.
Arguments transactionImpl_DeleteMulti_func {drv} tx0 keys w.
Arguments transactionImpl_DeleteMulti {drv} shared tx0 keys w.
Arguments transactionImpl_Delete {drv} shared tx0 key w.
Arguments transactionImpl_Commit {drv} tx0 w.
Arguments transactionImpl_Rollback {drv} tx0 w.
Arguments Next_calls {drv} iter bufs w.

(** The driver's contract on cursors: the "no more results" answer is
    final, and giving it does not move the cursor. *)
Definition cursor_exhaustion_is_permanent (drv : Driver) : Prop :=
  forall c ps s k ps' s',
    cursor_Next drv c ps s = (k, ps', Some OErrDone, s') ->
    forall ps2, exists k2 ps2',
      cursor_Next drv c ps2 s' = (k2, ps2', Some OErrDone, s').



(** ** An in-memory driver, for running the bridges on concrete inputs *)

Module Sample.

Record state : Type :=
  { store : list (OKey * OPropertyList);
    cursors : list (list (OKey * OPropertyList));
    pending : list OPendingKey }.

Fixpoint okey_eqb (a b : OKey) : bool :=
  match a, b with
  | MkOKey k1 i1 n1 p1, MkOKey k2 i2 n2 p2 =>
      String.eqb k1 k2 && Z.eqb i1 i2 && String.eqb n1 n2 &&
      match p1, p2 with
      | Some x, Some y => okey_eqb x y
      | None, None => true
      | _, _ => false
      end
  end.

Fixpoint find_entity (st : list (OKey * OPropertyList)) (k : OKey)
  : option OPropertyList :=
  match st with
  | [] => None
  | (k', e) :: rest => if okey_eqb k' k then Some e else find_entity rest k
  end.

Definition put_multi (keys : list OKey) (src : list OPropertyList) (s : state)
  : state :=
  {| store := combine keys src ++ store s;
     cursors := cursors s;
     pending := pending s |}.

(** A batch read: a length mismatch fails as a whole, a missing entity
    fails its slot. *)
Definition get_multi (keys : list OKey) (dst : list OPropertyList) (s : state)
  : list OPropertyList * option oerror * state :=
  if decide (length keys = length dst) then
    let found := map (find_entity (store s)) keys in
    let written :=
      map (fun p => match fst p with Some e => e | None => snd p end)
        (combine found dst) in
    if forallb (fun o => match o with Some _ => true | None => false end) found
    then (written, None, s)
    else (written,
          Some (OMultiError
                  (map (fun o : option OPropertyList =>
                          match o with
                          | Some _ => None
                          | None => Some OErrNoSuchEntity
                          end) found)),
          s)
  else (dst, Some (OErrOther "keys and dst slices have different length"), s).

Definition next (c : CursorHandle) (ps : OPropertyList) (s : state)
  : option OKey * OPropertyList * option oerror * state :=
  match cursors s !! c with
  | Some ((k, e) :: rest) =>
      (Some k, e, None,
       {| store := store s;
          cursors := <[c := rest]> (cursors s);
          pending := pending s |})
  | _ => (None, ps, Some OErrDone, s)
  end.

Definition driver : Driver :=
  {| DState := state;
     client_PutMulti := fun _ _ keys src s => (keys, None, put_multi keys src s);
     client_GetMulti := fun _ _ keys dst s => get_multi keys dst s;
     client_DeleteMulti := fun _ _ _ s => (None, s);
     client_Run := fun _ _ _ s => (0, s);
     client_GetAll := fun _ _ _ dst s =>
       (map fst (store s), map snd (store s), None, s);
     tx_PutMulti := fun _ keys src s =>
       (map (fun _ => {| opk_id := 7 |}) keys, None, put_multi keys src s);
     tx_GetMulti := fun _ keys dst s => get_multi keys dst s;
     tx_DeleteMulti := fun _ _ s => (None, s);
     tx_Commit := fun _ s => (Some {| oc_keys := [] |}, None, s);
     tx_Rollback := fun _ s => (None, s);
     cursor_Next := next |}.

(** What the batch drivers of package [shared] are taken to be in the
    runs: entities are their fields. *)
Definition fields_of (v : GoValue) : list PropertyList :=
  match v with
  | GoEntity f => [f]
  | GoSlice elems =>
      map (fun e => match e with GoEntity f => f | GoSlice _ => [] end) elems
  end.

Definition ops : SharedOps driver :=
  {| GetMultiOps := fun _ keys dst f =>
       bind (f keys (fields_of dst)) (fun r => ret (snd r));
     PutMultiOps := fun _ keys src f => f keys (fields_of src);
     DeleteMultiOps := fun _ keys f => f keys |}.

Definition k1 : Key := MkKey "Book" 1 "" None.
Definition k2 : Key := MkKey "Book" 2 "" None.
Definition e1 : PropertyList :=
  [ {| p_Name := "Title"; p_Value := VStr "Dune"; p_NoIndex := false |} ].
Definition e2 : PropertyList :=
  [ {| p_Name := "Pages"; p_Value := VInt 412; p_NoIndex := true |} ].

(** A store that holds [k1] and [k2], with one cursor over both. *)
Definition s0 : state :=
  {| store := [ (toOriginalKey k1, toOriginalPropertyList e1);
                (toOriginalKey k2, toOriginalPropertyList e2) ];
     cursors := [ [ (toOriginalKey k1, toOriginalPropertyList e1);
                    (toOriginalKey k2, toOriginalPropertyList e2) ] ];
     pending := [] |}.

Definition w0 : World driver := @Build_World driver s0 [].

(** A client outside a transaction and one inside transaction 5. *)
Definition plain_client : datastoreImpl driver :=
  {| ctx := [contextOther "trace-id" "42"]; client := 1;
     cacheStrategies := [] |}.

Definition tx_ctx_client : datastoreImpl driver :=
  {| ctx := [contextOther "trace-id" "42"; contextTransaction 5];
     client := 1; cacheStrategies := [] |}.

(** A cache layer that is not transaction-aware and answers every read
    with stale fields; a transaction-aware one that lets the read
    through. *)
Definition stale : PropertyList :=
  [ {| p_Name := "Title"; p_Value := VStr "stale"; p_NoIndex := false |} ].

Definition stale_layer : CacheStrategy driver :=
  {| cs_txAware := false;
     cs_GetMultiWithTx := fun _ _ keys _ => ret (map (fun _ => stale) keys, None);
     cs_Invalidate := fun _ _ => ret None |}.

Definition aware_layer : CacheStrategy driver :=
  {| cs_txAware := true;
     cs_GetMultiWithTx := fun next _ keys psList => next keys psList;
     cs_Invalidate := fun _ _ => ret None |}.

Definition cached_tx_client : datastoreImpl driver :=
  {| ctx := [contextTransaction 5]; client := 1;
     cacheStrategies := [stale_layer; aware_layer] |}.

(** A client inside transaction 5 whose only cache layer is not
    transaction-aware. *)
Definition stale_tx_client : datastoreImpl driver :=
  {| ctx := [contextTransaction 5]; client := 1;
     cacheStrategies := [stale_layer] |}.


Definition book_query : queryImpl :=
  {| q := {| oq_kind := "Book" |}; q_firstError := None |}.

Definition book_iterator : iteratorImpl driver :=
  {| it_client := plain_client; it_q := book_query; t := 0;
     firstError := None |}.

(** The store of [s0] once cursor 0 has returned both entities. *)
Definition drained : state :=
  {| store := store s0; cursors := [ [] ]; pending := [] |}.

End Sample.

(** ** Client construction *)

(** [option.ClientOption] of the driver: the four that [FromContext]
    builds. *)
Inductive origClientOption : Type :=
  | WithScopes (scopes : list string)
  | WithTokenSource (ts : nat)
  | WithCredentialsFile (file : string)
  | WithHTTPClient (c : nat).

(** [internal.ClientSettings]: the fields [FromContext] reads.  A nil
    token source or HTTP client is [None]. *)
Record ClientSettings : Type :=
  { ProjectID : string;
    Scopes : list string;
    TokenSource : option nat;
    CredentialsFile : string;
    HTTPClient : option nat }.

(** [w.ClientOption]: [Apply] updates the settings it is given. *)
Definition ClientOption : Type := ClientSettings -> ClientSettings.

(** What client construction reaches outside the package: the metadata
    server's answer ([metadata.ProjectID], a project and an error),
    [internal.GetProjectID], and the driver's [datastore.NewClient]. *)
Record Platform : Type :=
  { metadata_ProjectID : string * option string;
    internal_GetProjectID : string;
    datastore_NewClient :
      Context -> string -> list origClientOption ->
      ClientHandle * option oerror }.

(** The package variable [projectID] (nil until the first call), and the
    number of lookups made at the metadata server. *)
Record Globals : Type :=
  { projectID : option string;
    metadata_lookups : nat }.

Definition newClientSettings (pf : Platform) (opts : list ClientOption)
    (g : Globals) : ClientSettings * Globals :=
  let '(pID, g) :=
    match projectID g with
    | None =>
        let '(pID, err) := metadata_ProjectID pf in
        let pID :=
          match err with
          | Some _ => internal_GetProjectID pf
          | None => pID
          end in
        (pID, {| projectID := Some pID;
                 metadata_lookups := S (metadata_lookups g) |})
    | Some pID => (pID, g)
    end in
  let settings :=
    {| ProjectID := pID; Scopes := []; TokenSource := None;
       CredentialsFile := ""; HTTPClient := None |} in
  (fold_left (fun settings opt => opt settings) opts settings, g).

(** The driver options [FromContext] derives from the settings. *)
Definition FromContext_origOpts (settings : ClientSettings)
  : list origClientOption :=
  let origOpts := [] in
  let origOpts :=
    if decide (length (Scopes settings) <> 0)
    then origOpts ++ [WithScopes (Scopes settings)] else origOpts in
  let origOpts :=
    match TokenSource settings with
    | Some ts => origOpts ++ [WithTokenSource ts]
    | None => origOpts
    end in
  let origOpts :=
    if decide (CredentialsFile settings <> "")
    then origOpts ++ [WithCredentialsFile (CredentialsFile settings)]
    else origOpts in
  match HTTPClient settings with
  | Some c => origOpts ++ [WithHTTPClient c]
  | None => origOpts
  end.

(** [FromContext]: the client ([None] for nil) and the error, which is the
    driver's own. *)
Definition FromContext (drv : Driver) (pf : Platform)
    (ctx0 : Context) (opts : list ClientOption) (g : Globals)
  : option (datastoreImpl drv) * option oerror * Globals :=
  let '(settings, g) := newClientSettings pf opts g in
  let origOpts := FromContext_origOpts settings in
  let '(client0, err) :=
    datastore_NewClient pf ctx0 (ProjectID settings) origOpts in
  match err with
  | Some e => (None, Some e, g)
  | None =>
      (Some {| ctx := ctx0; client := client0; cacheStrategies := [] |},
       None, g)
  end.

(** ** Fixed batch drivers and a platform, for concrete runs *)

Module Stub.

(** Batch drivers of package [shared] that answer with fixed results. *)
Definition ops (gerr : error) (pKeys : list PendingKey) (perr : error)
    (derr : error) : SharedOps Sample.driver :=
  {| GetMultiOps := fun _ _ _ _ => ret gerr;
     PutMultiOps := fun _ _ _ _ => ret ([], pKeys, perr);
     DeleteMultiOps := fun _ _ _ => ret derr |}.

(** A platform off the cloud: the metadata server does not answer. *)
Definition offline : Platform :=
  {| metadata_ProjectID := ("", Some "metadata: not available");
     internal_GetProjectID := "local-project";
     datastore_NewClient := fun _ project _ =>
       if decide (project = "") then (0, Some (OErrOther "missing project"))
       else (1, None) |}.

Definition fresh : Globals :=
  {| projectID := None; metadata_lookups := 0 |}.

(** [WithProjectID] and [WithScopes] of the wrapper. *)
Definition withProjectID (p : string) : ClientOption :=
  fun s =>
    {| ProjectID := p; Scopes := Scopes s; TokenSource := TokenSource s;
       CredentialsFile := CredentialsFile s; HTTPClient := HTTPClient s |}.

Definition withScopes (sc : list string) : ClientOption :=
  fun s =>
    {| ProjectID := ProjectID s; Scopes := sc; TokenSource := TokenSource s;
       CredentialsFile := CredentialsFile s; HTTPClient := HTTPClient s |}.

End Stub.

(** ** A driver whose cursors read the live store *)

Module Live.

(** The entities in the order they were stored, and how many of them the
    cursor has returned. *)
Record state : Type :=
  { entities : list (OKey * OPropertyList);
    position : nat }.

(** The cursor returns the next stored entity, and "no more results"
    when it has returned them all, without moving. *)
Definition next (c : CursorHandle) (ps : OPropertyList) (s : state)
  : option OKey * OPropertyList * option oerror * state :=
  match entities s !! position s with
  | Some (k, e) =>
      (Some k, e, None,
       {| entities := entities s; position := S (position s) |})
  | None => (None, ps, Some OErrDone, s)
  end.

Definition put (keys : list OKey) (src : list OPropertyList) (s : state)
  : state :=
  {| entities := entities s ++ combine keys src; position := position s |}.

Definition driver : Driver :=
  {| DState := state;
     client_PutMulti := fun _ _ keys src s => (keys, None, put keys src s);
     client_GetMulti := fun _ _ _ dst s => (dst, None, s);
     client_DeleteMulti := fun _ _ _ s => (None, s);
     client_Run := fun _ _ _ s => (0, s);
     client_GetAll := fun _ _ _ dst s =>
       (map fst (entities s), map snd (entities s), None, s);
     tx_PutMulti := fun _ keys src s => ([], None, put keys src s);
     tx_GetMulti := fun _ _ dst s => (dst, None, s);
     tx_DeleteMulti := fun _ _ s => (None, s);
     tx_Commit := fun _ s => (None, None, s);
     tx_Rollback := fun _ s => (None, s);
     cursor_Next := next |}.

(** An empty store, a client on it, and an iterator over its cursor. *)
Definition w0 : World driver :=
  @Build_World driver {| entities := []; position := 0 |} [].

Definition plain_client : datastoreImpl driver :=
  {| ctx := []; client := 1; cacheStrategies := [] |}.

Definition book_iterator : iteratorImpl driver :=
  {| it_client := plain_client; it_q := Sample.book_query; t := 0;
     firstError := None |}.

End Live.

(** * Properties *)

(** ** Slices and translation *)

Section SliceFacts.

Context {A B : Type}.

Lemma length_fill_in_place (old written : list A) :
  length (fill_in_place old written) = length old.
Proof.
  unfold fill_in_place.
  rewrite length_app, length_take, length_drop. lia.
Qed.

Lemma fill_in_place_same_length (old written : list A) :
  length written = length old -> fill_in_place old written = written.
Proof.
  intros Hlen. unfold fill_in_place.
  rewrite <- Hlen, firstn_all, drop_ge by lia. apply app_nil_r.
Qed.

(** The write-back loop started at [idx] with exactly the remaining slots
    to write keeps the slots before [idx] and installs the rest. *)
Lemma write_back_from (wPss : list A) :
  forall idx psList,
    idx + length wPss = length psList ->
    write_back idx wPss psList = Ret (take idx psList ++ wPss).
Proof.
  induction wPss as [|wPs rest IH]; intros idx psList Hlen; simpl in *.
  - rewrite Nat.add_0_r in Hlen. subst idx.
    now rewrite firstn_all, app_nil_r.
  - destruct (decide (idx < length psList)) as [Hlt|Hge]; [|lia].
    rewrite IH by (rewrite length_insert; lia).
    rewrite (take_S_r _ _ wPs) by (apply list_lookup_insert_eq; exact Hlt).
    rewrite take_insert_ge by lia.
    now rewrite <- app_assoc.
Qed.

Lemma write_back_all (wPss psList : list A) :
  length wPss = length psList -> write_back 0 wPss psList = Ret wPss.
Proof.
  intros Hlen. now rewrite write_back_from by (simpl; lia).
Qed.

(** With more slots to write than the slice has, the loop panics. *)
Lemma write_back_overflow (wPss : list A) :
  forall idx psList,
    idx <= length psList ->
    length psList < idx + length wPss ->
    write_back idx wPss psList = Panic IndexOutOfRange.
Proof.
  induction wPss as [|wPs rest IH]; intros idx psList Hidx Hlen; simpl in *.
  - lia.
  - destruct (decide (idx < length psList)) as [Hlt|Hge]; [|reflexivity].
    apply IH; rewrite length_insert; lia.
Qed.

Lemma lookup_map (f : A -> B) (l : list A) (i : nat) :
  map f l !! i = f <$> l !! i.
Proof.
  revert i. induction l as [|x l IH]; intros [|i]; simpl; auto.
Qed.

End SliceFacts.



Lemma toWrapperKey_toOriginalKey (k : Key) :
  toWrapperKey (toOriginalKey k) = k.
Proof.
  revert k. fix IH 1. intros [kind id name [p|]]; simpl.
  - now rewrite IH.
  - reflexivity.
Qed.

(** Only the driver's "no more results" is normalized to [ErrDone]. *)
Lemma toWrapperError_ErrDone (e : oerror) :
  toWrapperError e = ErrDone -> e = OErrDone.
Proof. destruct e; simpl; congruence. Qed.

(** A normalized multi error has the length of the driver's. *)
Lemma toWrapperError_MultiError_length (slots : list (option oerror)) :
  exists wslots,
    toWrapperError (OMultiError slots) = MultiError wslots /\
    length wslots = length slots.
Proof.
  eexists. split; [reflexivity|]. now rewrite length_map.
Qed.

(** ** The context *)

Lemma getTx_Value (c : Context) : getTx c = Value_contextTransaction c.
Proof. unfold getTx. now destruct (Value_contextTransaction c). Qed.

Lemma getTx_no_transaction_entry (c : Context) :
  Forall (fun e => forall h, e <> contextTransaction h) c -> getTx c = None.
Proof.
  rewrite getTx_Value.
  induction 1 as [|e c He _ IH]; simpl; [reflexivity|].
  destruct e as [h|k v]; [now destruct (He h)|exact IH].
Qed.

(** ** C1 *)

(** C1.  A Transaction Bridge operation ([PutMulti], [GetMulti] or
    [DeleteMulti] of [originalTransactionBridgeImpl]) called while the
    context carries no transaction handle returns the "unexpected
    context" error at once: the world it leaves is the one it was called
    in, so the driver was not called and nothing was added to the trace,
    and the caller's slice is as it was. *)
Theorem transaction_bridge_unexpected_context
    (drv : Driver) (otb : originalTransactionBridgeImpl drv)
    (keys : list Key) (psList : list PropertyList) (w : World drv) :
  getTx (ctx (tx_client (tx otb))) = None ->
  originalTransactionBridgeImpl_PutMulti otb keys psList w
    = (Ret ([], Some (ErrNew "unexpected context")), w) /\
  originalTransactionBridgeImpl_GetMulti otb keys psList w
    = (Ret (psList, Some (ErrNew "unexpected context")), w) /\
  originalTransactionBridgeImpl_DeleteMulti otb keys w
    = (Ret (Some (ErrNew "unexpected context")), w).
Proof.
  intros Hnone.
  unfold originalTransactionBridgeImpl_PutMulti,
    originalTransactionBridgeImpl_GetMulti,
    originalTransactionBridgeImpl_DeleteMulti.
  rewrite Hnone. repeat split.
Qed.

Lemma transaction_bridge_unexpected_context_witness :
  let otb := {| tx := {| tx_client := Sample.plain_client |} |} in
  originalTransactionBridgeImpl_PutMulti otb
    [Sample.k1] [Sample.e1] Sample.w0
    = (Ret ([], Some (ErrNew "unexpected context")), Sample.w0) /\
  originalTransactionBridgeImpl_GetMulti otb
    [Sample.k1] [Sample.e1] Sample.w0
    = (Ret ([Sample.e1], Some (ErrNew "unexpected context")), Sample.w0) /\
  originalTransactionBridgeImpl_DeleteMulti otb [Sample.k1] Sample.w0
    = (Ret (Some (ErrNew "unexpected context")), Sample.w0).
Proof.
  intros otb.
  apply (transaction_bridge_unexpected_context Sample.driver otb).
  reflexivity.
Defined.

(** ** C3 and C4 *)

(** C3.  [Commit] on a transaction whose context carries no driver
    transaction returns a nil [Commit] and a nil error, and leaves the
    world as it was: the driver is not called. *)
Theorem Commit_without_transaction_is_noop
    (drv : Driver) (tx0 : transactionImpl drv) (w : World drv) :
  getTx (ctx (tx_client tx0)) = None ->
  transactionImpl_Commit (Some tx0) w = (Ret (None, None), w).
Proof.
  intros Hnone. unfold transactionImpl_Commit, bind, deref, ret.
  now rewrite Hnone.
Qed.

Lemma Commit_without_transaction_is_noop_witness :
  transactionImpl_Commit (Some {| tx_client := Sample.plain_client |})
    Sample.w0
  = (Ret (None, None), Sample.w0).
Proof.
  apply (Commit_without_transaction_is_noop Sample.driver).
  reflexivity.
Defined.

(** C4.  [Rollback] guards the driver call with a test of the receiver,
    not of the handle found in the context: on a non-nil transaction
    whose context carries no driver transaction the no-op branch is not
    taken, and the call on the nil handle panics with a nil dereference
    before anything reaches the driver. *)
Theorem Rollback_without_transaction_dereferences_nil
    (drv : Driver) (tx0 : transactionImpl drv) (w : World drv) :
  getTx (ctx (tx_client tx0)) = None ->
  transactionImpl_Rollback (Some tx0) w = (Panic NilDereference, w) /\
  transactionImpl_Rollback (Some tx0) w <> (Ret None, w).
Proof.
  intros Hnone.
  assert (transactionImpl_Rollback (Some tx0) w = (Panic NilDereference, w))
    as Hrun.
  { unfold transactionImpl_Rollback, bind, deref, ret. simpl.
    now rewrite Hnone. }
  split; [exact Hrun|]. rewrite Hrun. discriminate.
Qed.

Lemma Rollback_without_transaction_dereferences_nil_witness :
  let tx0 := {| tx_client := Sample.plain_client |} in
  transactionImpl_Rollback (Some tx0) Sample.w0
    = (Panic NilDereference, Sample.w0) /\
  transactionImpl_Rollback (Some tx0) Sample.w0 <> (Ret None, Sample.w0).
Proof.
  intros tx0.
  apply (Rollback_without_transaction_dereferences_nil Sample.driver).
  reflexivity.
Defined.

(** The receiver test of [Rollback] cannot succeed either: a nil receiver
    is dereferenced on the line before it. *)
Lemma Rollback_nil_receiver (drv : Driver) (w : World drv) :
  @transactionImpl_Rollback drv None w = (Panic NilDereference, w).
Proof. reflexivity. Qed.

(** With a driver transaction in the context, [Rollback] reaches the
    driver. *)
Lemma Rollback_with_transaction
    (drv : Driver) (tx0 : transactionImpl drv) (w : World drv) (h : TxHandle) :
  getTx (ctx (tx_client tx0)) = Some h ->
  transactionImpl_Rollback (Some tx0) w
  = (Ret (option_map toWrapperError (fst (tx_Rollback drv h (dstate w)))),
     {| dstate := snd (tx_Rollback drv h (dstate w));
        trace := trace w ++ [CallTxRollback h] |}).
Proof.
  intros Hsome.
  unfold transactionImpl_Rollback, bind, deref, ret, on_tx, driver_call.
  simpl. rewrite Hsome.
  destruct (tx_Rollback drv h (dstate w)) as [[e|] s']; reflexivity.
Qed.

(** ** C7 and C10: the batch read of both bridges *)

(** How the two bridges' [GetMulti] run once the driver has answered:
    the world after the call, and the slice the driver filled. *)
Lemma originalClientBridgeImpl_GetMulti_run
    (drv : Driver) (ocb : originalClientBridgeImpl drv) (ctx0 : Context)
    (keys : list Key) (psList : list PropertyList) (w : World drv)
    (written : list OPropertyList) (err : option oerror) (s' : DState drv) :
  client_GetMulti drv (client (d ocb)) ctx0
    (toOriginalKeys keys) (toOriginalPropertyListList psList) (dstate w)
    = (written, err, s') ->
  originalClientBridgeImpl_GetMulti ocb ctx0 keys psList w
  = (Ret (match err with
          | Some e => (psList, Some (toWrapperError e))
          | None =>
              (toWrapperPropertyListList
                 (fill_in_place (toOriginalPropertyListList psList) written),
               None)
          end),
     {| dstate := s'; trace := trace w ++ [CallClientGetMulti (client (d ocb))] |}).
Proof.
  intros Hdrv.
  unfold originalClientBridgeImpl_GetMulti, bind, driver_call.
  rewrite Hdrv. destruct err as [e|]; simpl; [reflexivity|].
  unfold lift. rewrite write_back_all; [reflexivity|].
  unfold toWrapperPropertyListList, toOriginalPropertyListList.
  now rewrite length_map, length_fill_in_place, length_map.
Qed.

Lemma originalTransactionBridgeImpl_GetMulti_run
    (drv : Driver) (otb : originalTransactionBridgeImpl drv) (h : TxHandle)
    (keys : list Key) (psList : list PropertyList) (w : World drv)
    (written : list OPropertyList) (err : option oerror) (s' : DState drv) :
  getTx (ctx (tx_client (tx otb))) = Some h ->
  tx_GetMulti drv h
    (toOriginalKeys keys) (toOriginalPropertyListList psList) (dstate w)
    = (written, err, s') ->
  originalTransactionBridgeImpl_GetMulti otb keys psList w
  = (Ret (match err with
          | Some e => (psList, Some (toWrapperError e))
          | None =>
              (toWrapperPropertyListList
                 (fill_in_place (toOriginalPropertyListList psList) written),
               None)
          end),
     {| dstate := s'; trace := trace w ++ [CallTxGetMulti h] |}).
Proof.
  intros Htx Hdrv.
  unfold originalTransactionBridgeImpl_GetMulti, bind, on_tx, driver_call.
  rewrite Htx, Hdrv. destruct err as [e|]; simpl; [reflexivity|].
  unfold lift. rewrite write_back_all; [reflexivity|].
  unfold toWrapperPropertyListList, toOriginalPropertyListList.
  now rewrite length_map, length_fill_in_place, length_map.
Qed.




(** C10.  When the driver call of [GetMulti] fails, through either
    bridge, the caller's slice is returned as it was passed in, and the
    error is the driver's, normalized. *)
Theorem GetMulti_failure_leaves_slice (drv : Driver) :
  (forall (ocb : originalClientBridgeImpl drv) ctx0 keys psList w written e s',
      client_GetMulti drv (client (d ocb)) ctx0 (toOriginalKeys keys)
        (toOriginalPropertyListList psList) (dstate w)
        = (written, Some e, s') ->
      originalClientBridgeImpl_GetMulti ocb ctx0 keys psList w
      = (Ret (psList, Some (toWrapperError e)),
         {| dstate := s';
            trace := trace w ++ [CallClientGetMulti (client (d ocb))] |})) /\
  (forall (otb : originalTransactionBridgeImpl drv) h keys psList w written e s',
      getTx (ctx (tx_client (tx otb))) = Some h ->
      tx_GetMulti drv h (toOriginalKeys keys)
        (toOriginalPropertyListList psList) (dstate w)
        = (written, Some e, s') ->
      originalTransactionBridgeImpl_GetMulti otb keys psList w
      = (Ret (psList, Some (toWrapperError e)),
         {| dstate := s'; trace := trace w ++ [CallTxGetMulti h] |})).
Proof.
  split.
  - intros ocb ctx0 keys psList w written e s' Hdrv.
    now rewrite (originalClientBridgeImpl_GetMulti_run _ _ _ _ _ _ _ _ _ Hdrv).
  - intros otb h keys psList w written e s' Htx Hdrv.
    now rewrite (originalTransactionBridgeImpl_GetMulti_run
                   _ _ _ _ _ _ _ _ _ Htx Hdrv).
Qed.

Lemma GetMulti_failure_leaves_slice_witness :
  let missing := MkKey "Book" 3 "" None in
  let failure := Some (MultiError [None; Some ErrNoSuchEntity]) in
  originalClientBridgeImpl_GetMulti {| d := Sample.plain_client |} []
    [Sample.k1; missing] [[]; Sample.stale] Sample.w0
  = (Ret ([[]; Sample.stale], failure),
     @Build_World Sample.driver Sample.s0 [CallClientGetMulti 1]) /\
  originalTransactionBridgeImpl_GetMulti
    {| tx := {| tx_client := Sample.tx_ctx_client |} |}
    [Sample.k1; missing] [[]; Sample.stale] Sample.w0
  = (Ret ([[]; Sample.stale], failure),
     @Build_World Sample.driver Sample.s0 [CallTxGetMulti 5]).
Proof.
  intros missing failure. split.
  - apply (proj1 (GetMulti_failure_leaves_slice Sample.driver)
             {| d := Sample.plain_client |} [] [Sample.k1; missing]
             [[]; Sample.stale] Sample.w0
             [toOriginalPropertyList Sample.e1;
              toOriginalPropertyList Sample.stale]
             (OMultiError [None; Some OErrNoSuchEntity]) Sample.s0).
    reflexivity.
  - apply (proj2 (GetMulti_failure_leaves_slice Sample.driver)
             {| tx := {| tx_client := Sample.tx_ctx_client |} |} 5
             [Sample.k1; missing] [[]; Sample.stale] Sample.w0
             [toOriginalPropertyList Sample.e1;
              toOriginalPropertyList Sample.stale]
             (OMultiError [None; Some OErrNoSuchEntity]) Sample.s0).
    + reflexivity.
    + reflexivity.
Defined.

(** ** C6: the transactional write *)

(** A successful [PutMulti] of the Transaction Bridge ran the driver
    transaction's [PutMulti] once and translated its pending keys. *)
Lemma originalTransactionBridgeImpl_PutMulti_success
    (drv : Driver) (otb : originalTransactionBridgeImpl drv)
    keys psList w pKeys w' :
  originalTransactionBridgeImpl_PutMulti otb keys psList w
    = (Ret (pKeys, None), w') ->
  exists h origPKeys s',
    getTx (ctx (tx_client (tx otb))) = Some h /\
    tx_PutMulti drv h (toOriginalKeys keys)
      (toOriginalPropertyListList psList) (dstate w)
      = (origPKeys, None, s') /\
    pKeys = toWrapperPendingKeys origPKeys /\
    w' = {| dstate := s'; trace := trace w ++ [CallTxPutMulti h] |}.
Proof.
  intros Hrun.
  unfold originalTransactionBridgeImpl_PutMulti in Hrun.
  destruct (getTx (ctx (tx_client (tx otb)))) as [h|]; [|discriminate].
  unfold bind, on_tx, driver_call in Hrun.
  destruct (tx_PutMulti drv h (toOriginalKeys keys)
              (toOriginalPropertyListList psList) (dstate w))
    as [[origPKeys err] s'] eqn:Hdrv.
  destruct err as [e|]; [discriminate|].
  injection Hrun as <- <-.
  exists h, origPKeys, s'. repeat split. exact Hdrv.
Qed.

(** The cache layers do not touch the result of a write: with the Cache
    Bridge as the spec gives it, the pending keys that reach
    [shared.PutMultiOps] on success are the Transaction Bridge's. *)
Lemma transactionImpl_PutMulti_func_success
    (drv : Driver) (tx0 : transactionImpl drv) keys src w wKeys pKeys w' :
  transactionImpl_PutMulti_func tx0 keys src w
    = (Ret (wKeys, pKeys, None), w') ->
  exists h origPKeys s',
    getTx (ctx (tx_client tx0)) = Some h /\
    tx_PutMulti drv h (toOriginalKeys keys)
      (toOriginalPropertyListList src) (dstate w)
      = (origPKeys, None, s') /\
    pKeys = toWrapperPendingKeys origPKeys.
Proof.
  intros Hrun.
  unfold transactionImpl_PutMulti_func, PutMultiWithTx in Hrun.
  unfold bind at 1 2 in Hrun. simpl in Hrun.
  destruct (originalTransactionBridgeImpl_PutMulti _ keys src w)
    as [[[pk [e|]]|p] w1] eqn:Hotb; simpl in Hrun; try discriminate.
  destruct (originalTransactionBridgeImpl_PutMulti_success
              _ _ _ _ _ _ _ Hotb) as (h & origPKeys & s' & Htx & Hdrv & -> & _).
  exists h, origPKeys, s'. repeat split; try assumption.
  unfold bind, ret in Hrun.
  destruct (invalidate_all _ _ _ _) as [[[]|p] w2]; [|discriminate].
  now injection Hrun as _ <- _.
Qed.

(** The function handed to [shared.PutMultiOps] returns nil in the slot
    of the concrete keys, whatever the write did. *)
Lemma transactionImpl_PutMulti_func_no_keys
    (drv : Driver) (tx0 : transactionImpl drv)
    keys src w wKeys pKeys err w' :
  transactionImpl_PutMulti_func tx0 keys src w
    = (Ret (wKeys, pKeys, err), w') ->
  wKeys = [].
Proof.
  intros Hrun.
  unfold transactionImpl_PutMulti_func, bind, ret in Hrun.
  destruct (PutMultiWithTx _ _ _ _ _) as [[[pk e]|p] w1]; [|discriminate].
  now injection Hrun as <- _ _ _.
Qed.

(** [transactionImpl.PutMulti] succeeds exactly when [shared.PutMultiOps]
    does, and then returns the pending keys [shared.PutMultiOps] returned,
    dropping its slot of concrete keys. *)
Lemma transactionImpl_PutMulti_success
    (drv : Driver) (shared : SharedOps drv) (tx0 : transactionImpl drv)
    keys src w pKeys w' :
  transactionImpl_PutMulti shared tx0 keys src w = (Ret (pKeys, None), w')
  <->
  exists wKeys,
    PutMultiOps shared (ctx (tx_client tx0)) keys src
      (transactionImpl_PutMulti_func tx0) w
    = (Ret (wKeys, pKeys, None), w').
Proof.
  unfold transactionImpl_PutMulti, bind, ret.
  destruct (PutMultiOps shared (ctx (tx_client tx0)) keys src
              (transactionImpl_PutMulti_func tx0) w)
    as [[[[wKeys0 pKeys0] [e|]]|p] w1]; split.
  - discriminate.
  - intros [wKeys Hops]. discriminate.
  - intros Hrun. injection Hrun as <- <-. now exists wKeys0.
  - intros [wKeys Hops]. now injection Hops as _ <- <-.
  - discriminate.
  - intros [wKeys Hops]. discriminate.
Qed.

(** C6.  A successful transactional [PutMulti] returns pending keys, not
    concrete keys.  The Transaction Bridge's [PutMulti] returns on
    success the driver transaction's pending keys, translated slot by
    slot.  The function [transactionImpl.PutMulti] hands to
    [shared.PutMultiOps] returns nil in the slot of the concrete keys
    and, on success, those translated pending keys.
    [transactionImpl.PutMulti] succeeds exactly when [shared.PutMultiOps]
    does and returns the pending keys it returned; so whenever
    [shared.PutMultiOps] hands back what that function returned, the
    pending keys [transactionImpl.PutMulti] returns are the driver
    transaction's, translated. *)
Theorem transactional_PutMulti_returns_pending_keys
    (drv : Driver) (shared : SharedOps drv) :
  (forall (otb : originalTransactionBridgeImpl drv) keys psList w pKeys w',
      originalTransactionBridgeImpl_PutMulti otb keys psList w
        = (Ret (pKeys, None), w') ->
      exists h origPKeys s',
        getTx (ctx (tx_client (tx otb))) = Some h /\
        tx_PutMulti drv h (toOriginalKeys keys)
          (toOriginalPropertyListList psList) (dstate w)
          = (origPKeys, None, s') /\
        pKeys = toWrapperPendingKeys origPKeys /\
        w' = {| dstate := s'; trace := trace w ++ [CallTxPutMulti h] |}) /\
  (forall (tx0 : transactionImpl drv) keys src w wKeys pKeys err w',
      transactionImpl_PutMulti_func tx0 keys src w
        = (Ret (wKeys, pKeys, err), w') ->
      wKeys = [] /\
      (err = None ->
       exists h origPKeys s',
         getTx (ctx (tx_client tx0)) = Some h /\
         tx_PutMulti drv h (toOriginalKeys keys)
           (toOriginalPropertyListList src) (dstate w)
           = (origPKeys, None, s') /\
         pKeys = toWrapperPendingKeys origPKeys)) /\
  (forall (tx0 : transactionImpl drv) keys src w pKeys w',
      transactionImpl_PutMulti shared tx0 keys src w
        = (Ret (pKeys, None), w')
      <->
      exists wKeys,
        PutMultiOps shared (ctx (tx_client tx0)) keys src
          (transactionImpl_PutMulti_func tx0) w
        = (Ret (wKeys, pKeys, None), w')) /\
  (forall (tx0 : transactionImpl drv) keys src psList w pKeys w',
      PutMultiOps shared (ctx (tx_client tx0)) keys src
        (transactionImpl_PutMulti_func tx0) w
        = transactionImpl_PutMulti_func tx0 keys psList w ->
      transactionImpl_PutMulti shared tx0 keys src w
        = (Ret (pKeys, None), w') ->
      exists h origPKeys s',
        getTx (ctx (tx_client tx0)) = Some h /\
        tx_PutMulti drv h (toOriginalKeys keys)
          (toOriginalPropertyListList psList) (dstate w)
          = (origPKeys, None, s') /\
        pKeys = toWrapperPendingKeys origPKeys).
Proof.
  split; [|split; [|split]].
  - intros otb keys psList w pKeys w'.
    apply originalTransactionBridgeImpl_PutMulti_success.
  - intros tx0 keys src w wKeys pKeys err w' Hrun. split.
    + exact (transactionImpl_PutMulti_func_no_keys _ _ _ _ _ _ _ _ _ Hrun).
    + intros ->.
      exact (transactionImpl_PutMulti_func_success _ _ _ _ _ _ _ _ Hrun).
  - intros tx0 keys src w pKeys w'.
    apply transactionImpl_PutMulti_success.
  - intros tx0 keys src psList w pKeys w' Hops Hrun.
    apply transactionImpl_PutMulti_success in Hrun as [wKeys Hrun].
    rewrite Hops in Hrun.
    exact (transactionImpl_PutMulti_func_success _ _ _ _ _ _ _ _ Hrun).
Qed.

Lemma transactional_PutMulti_returns_pending_keys_witness :
  let tx0 := {| tx_client := Sample.cached_tx_client |} in
  let pKeys := [ {| pk_orig := {| opk_id := 7 |} |} ] in
  let w' :=
    @Build_World Sample.driver
      (Sample.put_multi (toOriginalKeys [Sample.k1])
         (toOriginalPropertyListList [Sample.e1]) Sample.s0)
      [CallTxPutMulti 5] in
  (exists h origPKeys s',
      getTx (ctx Sample.tx_ctx_client) = Some h /\
      tx_PutMulti Sample.driver h (toOriginalKeys [Sample.k1])
        (toOriginalPropertyListList [Sample.e1]) Sample.s0
        = (origPKeys, None, s') /\
      pKeys = toWrapperPendingKeys origPKeys /\
      w' = {| dstate := s'; trace := trace Sample.w0 ++ [CallTxPutMulti h] |}) /\
  (@nil Key = [] /\
   (@None werror = None ->
    exists h origPKeys s',
      getTx (ctx (tx_client tx0)) = Some h /\
      tx_PutMulti Sample.driver h (toOriginalKeys [Sample.k1])
        (toOriginalPropertyListList [Sample.e1]) (dstate Sample.w0)
        = (origPKeys, None, s') /\
      pKeys = toWrapperPendingKeys origPKeys)) /\
  (exists wKeys,
      PutMultiOps Sample.ops (ctx (tx_client tx0)) [Sample.k1]
        (GoSlice [GoEntity Sample.e1]) (transactionImpl_PutMulti_func tx0)
        Sample.w0
      = (Ret (wKeys, pKeys, None), w')) /\
  (exists h origPKeys s',
      getTx (ctx (tx_client tx0)) = Some h /\
      tx_PutMulti Sample.driver h (toOriginalKeys [Sample.k1])
        (toOriginalPropertyListList [Sample.e1]) (dstate Sample.w0)
        = (origPKeys, None, s') /\
      pKeys = toWrapperPendingKeys origPKeys).
Proof.
  intros tx0 pKeys w'.
  pose proof (transactional_PutMulti_returns_pending_keys
                Sample.driver Sample.ops)
    as (Hbridge & Hfunc & Hfacade & Hend).
  split; [|split; [|split]].
  - apply (Hbridge {| tx := {| tx_client := Sample.tx_ctx_client |} |}
             [Sample.k1] [Sample.e1] Sample.w0).
    reflexivity.
  - apply (Hfunc tx0 [Sample.k1] [Sample.e1] Sample.w0 [] pKeys None w').
    reflexivity.
  - apply (Hfacade tx0 [Sample.k1] (GoSlice [GoEntity Sample.e1])
             Sample.w0 pKeys w').
    reflexivity.
  - apply (Hend tx0 [Sample.k1] (GoSlice [GoEntity Sample.e1])
             [Sample.e1] Sample.w0 pKeys w').
    + reflexivity.
    + reflexivity.
Defined.

(** ** C5: the single-item operations *)

(** C5.  [Get], [Put] and [Delete] of a transaction run the batch
    operation on a batch of one.  When it fails with a [MultiError] they
    return slot 0 of it; any other error is returned as it is; and when
    it succeeds [Get] and [Delete] return nil and [Put] returns the first
    pending key. *)
Theorem single_item_operations_unwrap_slot0
    (drv : Driver) (shared : SharedOps drv) (tx0 : transactionImpl drv) :
  (forall key dst w err w',
      transactionImpl_GetMulti shared tx0 [key] (GoSlice [dst]) w
        = (Ret err, w') ->
      match err with
      | Some (MultiError merr) =>
          forall slot, merr !! 0 = Some slot ->
            transactionImpl_Get shared tx0 key dst w = (Ret slot, w')
      | _ => transactionImpl_Get shared tx0 key dst w = (Ret err, w')
      end) /\
  (forall key src w pKeys err w',
      transactionImpl_PutMulti shared tx0 [key] (GoSlice [src]) w
        = (Ret (pKeys, err), w') ->
      match err with
      | Some (MultiError merr) =>
          forall slot, merr !! 0 = Some slot ->
            transactionImpl_Put shared tx0 key src w = (Ret (None, slot), w')
      | Some e =>
          transactionImpl_Put shared tx0 key src w = (Ret (None, Some e), w')
      | None =>
          forall pKey, pKeys !! 0 = Some pKey ->
            transactionImpl_Put shared tx0 key src w
              = (Ret (Some pKey, None), w')
      end) /\
  (forall key w err w',
      transactionImpl_DeleteMulti shared tx0 [key] w = (Ret err, w') ->
      match err with
      | Some (MultiError merr) =>
          forall slot, merr !! 0 = Some slot ->
            transactionImpl_Delete shared tx0 key w = (Ret slot, w')
      | _ => transactionImpl_Delete shared tx0 key w = (Ret err, w')
      end).
Proof.
  split; [|split].
  - intros key dst w err w' Hmulti.
    unfold transactionImpl_Get, bind. rewrite Hmulti.
    destruct err as [[]|]; try reflexivity.
    intros slot Hslot. destruct slots; [discriminate|].
    simpl in Hslot. now injection Hslot as ->.
  - intros key src w pKeys err w' Hmulti.
    unfold transactionImpl_Put, bind, lift, ret. rewrite Hmulti.
    destruct err as [[]|]; try reflexivity.
    + intros slot Hslot. destruct slots; [discriminate|].
      simpl in Hslot. now injection Hslot as ->.
    + intros pKey HpKey. destruct pKeys; [discriminate|].
      simpl in HpKey. now injection HpKey as ->.
  - intros key w err w' Hmulti.
    unfold transactionImpl_Delete, bind. rewrite Hmulti.
    destruct err as [[]|]; try reflexivity.
    intros slot Hslot. destruct slots; [discriminate|].
    simpl in Hslot. now injection Hslot as ->.
Qed.

Lemma single_item_operations_unwrap_slot0_witness :
  let tx0 := {| tx_client := Sample.cached_tx_client |} in
  let missing := MkKey "Book" 3 "" None in
  transactionImpl_Get Sample.ops tx0 missing (GoEntity []) Sample.w0
    = (Ret (Some ErrNoSuchEntity),
       @Build_World Sample.driver Sample.s0 [CallTxGetMulti 5]) /\
  transactionImpl_Put Sample.ops tx0 Sample.k1 (GoEntity Sample.e1) Sample.w0
    = (Ret (Some {| pk_orig := {| opk_id := 7 |} |}, None),
       @Build_World Sample.driver
         (Sample.put_multi (toOriginalKeys [Sample.k1])
            (toOriginalPropertyListList [Sample.e1]) Sample.s0)
         [CallTxPutMulti 5]) /\
  transactionImpl_Delete Sample.ops tx0 Sample.k1 Sample.w0
    = (Ret None, @Build_World Sample.driver Sample.s0 [CallTxDeleteMulti 5]).
Proof.
  intros tx0 missing.
  pose proof (single_item_operations_unwrap_slot0
                Sample.driver Sample.ops tx0) as (HGet & HPut & HDelete).
  split; [|split].
  - apply (HGet missing (GoEntity []) Sample.w0
             (Some (MultiError [Some ErrNoSuchEntity]))
             (@Build_World Sample.driver Sample.s0 [CallTxGetMulti 5])).
    + reflexivity.
    + reflexivity.
  - apply (HPut Sample.k1 (GoEntity Sample.e1) Sample.w0
             [ {| pk_orig := {| opk_id := 7 |} |} ] None).
    + reflexivity.
    + reflexivity.
  - apply (HDelete Sample.k1 Sample.w0 None).
    reflexivity.
Defined.

(** Slot 0 is taken by indexing: a [MultiError] with no slot makes the
    single-item operation panic. *)
Lemma transactionImpl_Get_empty_MultiError
    (drv : Driver) (shared : SharedOps drv) (tx0 : transactionImpl drv)
    key dst w w' :
  transactionImpl_GetMulti shared tx0 [key] (GoSlice [dst]) w
    = (Ret (Some (MultiError [])), w') ->
  transactionImpl_Get shared tx0 key dst w = (Panic IndexOutOfRange, w').
Proof.
  intros Hmulti. unfold transactionImpl_Get, bind. now rewrite Hmulti.
Qed.

(** ** C2: reads inside a transaction *)

(** The read path does not depend on the layers that are not
    transaction-aware. *)
Lemma read_path_tx_bypass
    (drv : Driver) (otb : originalTransactionBridgeImpl drv)
    (info : CacheInfo) (cs : list (CacheStrategy drv)) :
  read_path_tx otb cs info
  = read_path_tx otb (List.filter cs_txAware cs) info.
Proof.
  induction cs as [|c rest IH]; [reflexivity|].
  cbn [read_path_tx List.filter].
  destruct (cs_txAware c) eqn:Haware.
  - cbn [read_path_tx]. now rewrite Haware, IH.
  - exact IH.
Qed.

(** C2.  The read of a batch inside a transaction, [transactionImpl.GetMulti],
    runs as if the layers that are not transaction-aware were not
    configured: what [shared.GetMultiOps] is given to fetch the values is
    the read path over the transaction-aware layers only, which ends in
    the Transaction Bridge; with no transaction-aware layer it is the
    Transaction Bridge's [GetMulti] itself. *)
Theorem transactional_read_bypasses_unaware_layers
    (drv : Driver) (shared : SharedOps drv) (tx0 : transactionImpl drv) :
  let aware := List.filter cs_txAware (cacheStrategies (tx_client tx0)) in
  let otb := {| tx := tx0 |} in
  transactionImpl_GetMulti_func tx0
    = read_path_tx otb aware (transactionImpl_cacheInfo tx0) /\
  (forall keys dst w,
      transactionImpl_GetMulti shared tx0 keys dst w
      = GetMultiOps shared (ctx (tx_client tx0)) keys dst
          (read_path_tx otb aware (transactionImpl_cacheInfo tx0)) w) /\
  (aware = [] ->
   forall keys dst w,
     transactionImpl_GetMulti shared tx0 keys dst w
     = GetMultiOps shared (ctx (tx_client tx0)) keys dst
         (originalTransactionBridgeImpl_GetMulti otb) w).
Proof.
  intros aware otb.
  assert (transactionImpl_GetMulti_func tx0
          = read_path_tx otb aware (transactionImpl_cacheInfo tx0)) as Hfunc.
  { unfold transactionImpl_GetMulti_func, GetMultiWithTx,
      transactionImpl_cacheBridge, NewCacheBridge. cbn [cb_otb cb_cs].
    apply (read_path_tx_bypass drv otb). }
  split; [exact Hfunc|]. split.
  - intros keys dst w. unfold transactionImpl_GetMulti. now rewrite Hfunc.
  - intros Hnone keys dst w. unfold transactionImpl_GetMulti.
    rewrite Hfunc, Hnone. reflexivity.
Qed.

Lemma transactional_read_bypasses_unaware_layers_witness :
  let tx0 := {| tx_client := Sample.stale_tx_client |} in
  transactionImpl_GetMulti Sample.ops tx0
    [Sample.k1] (GoSlice [GoEntity []]) Sample.w0
  = GetMultiOps Sample.ops (ctx (tx_client tx0))
      [Sample.k1] (GoSlice [GoEntity []])
      (originalTransactionBridgeImpl_GetMulti {| tx := tx0 |}) Sample.w0.
Proof.
  intros tx0.
  apply (proj2 (proj2 (transactional_read_bypasses_unaware_layers
                         Sample.driver Sample.ops tx0))).
  reflexivity.
Defined.

(** A layer that is not transaction-aware and would answer with stale
    fields is not asked: the read returns what the store holds. *)
Example transactional_read_skips_stale_layer :
  transactionImpl_GetMulti_func {| tx_client := Sample.cached_tx_client |}
    [Sample.k1] [[]] Sample.w0
  = (Ret ([Sample.e1], None),
     @Build_World Sample.driver Sample.s0 [CallTxGetMulti 5]).
Proof. reflexivity. Qed.

(** ** C8 and C9: iterators *)

(** Every call of the Iterator Bridge's [Next] on an [iteratorImpl]
    reaches the driver cursor, whatever the iterator carries. *)
Lemma originalIteratorBridgeImpl_Next_calls_cursor
    (drv : Driver) (iterImpl : iteratorImpl drv) (ps : PropertyList)
    (w : World drv) :
  trace (snd (originalIteratorBridgeImpl_Next (IteratorImpl iterImpl) ps w))
  = trace w ++ [CallCursorNext (t iterImpl)].
Proof.
  unfold originalIteratorBridgeImpl_Next, bind, driver_call.
  destruct (cursor_Next drv (t iterImpl) (toOriginalPropertyList ps) (dstate w))
    as [[[origKey origPs] [e|]] s']; reflexivity.
Qed.




(** The Iterator Bridge returns [ErrDone] exactly when the cursor
    answered "no more results". *)
Lemma originalIteratorBridgeImpl_Next_ErrDone
    (drv : Driver) (iterImpl : iteratorImpl drv) ps w k ps1 w1 :
  originalIteratorBridgeImpl_Next (IteratorImpl iterImpl) ps w
    = (Ret (k, ps1, Some ErrDone), w1) ->
  exists ok ops,
    cursor_Next drv (t iterImpl) (toOriginalPropertyList ps) (dstate w)
      = (ok, ops, Some OErrDone, dstate w1).
Proof.
  unfold originalIteratorBridgeImpl_Next, bind, driver_call.
  destruct (cursor_Next drv (t iterImpl) (toOriginalPropertyList ps) (dstate w))
    as [[[origKey origPs] [e|]] s'] eqn:Hdrv; simpl; intros Hrun;
    [|discriminate].
  injection Hrun as _ _ He <-. simpl.
  apply toWrapperError_ErrDone in He. subst e. eauto.
Qed.




(** Two calls of [Next] drain cursor 0 of the sample store. *)
Example Next_calls_drain :
  Next_calls (IteratorImpl Sample.book_iterator)
    [Sample.stale; Sample.stale] Sample.w0
  = ([Ret (Some Sample.k1, Sample.e1, None);
      Ret (Some Sample.k2, Sample.e2, None)],
     @Build_World Sample.driver Sample.drained
       [CallCursorNext 0; CallCursorNext 0]).
Proof. reflexivity. Qed.

(** The cursors of the live store keep their "no more results" answer
    from one call to the next. *)
Lemma Live_cursor_exhaustion_is_permanent :
  cursor_exhaustion_is_permanent Live.driver.
Proof.
  intros c ps s k ps' s' Hnext ps2. simpl in *. unfold Live.next in *.
  destruct (Live.entities s !! Live.position s) as [[k0 e0]|] eqn:Hcur;
    [discriminate|].
  injection Hnext as _ _ <-. exists None, ps2. now rewrite Hcur.
Qed.


(** * Further properties of the bridges *)

(** ** Original-Store Bridge *)

(** [GetMulti] of the Original-Store Bridge always returns: whatever the
    lengths of [keys] and [psList] and whatever the driver wrote, the
    write-back loop stays in range.  The caller's slice keeps its length,
    and the driver was called exactly once, on the client's handle. *)
Theorem originalClientBridgeImpl_GetMulti_returns
    (drv : Driver) (ocb : originalClientBridgeImpl drv) (ctx0 : Context)
    (keys : list Key) (psList : list PropertyList) (w : World drv) :
  exists psList' err w',
    originalClientBridgeImpl_GetMulti ocb ctx0 keys psList w
      = (Ret (psList', err), w') /\
    length psList' = length psList /\
    trace w' = trace w ++ [CallClientGetMulti (client (d ocb))].
Proof.
  destruct (client_GetMulti drv (client (d ocb)) ctx0 (toOriginalKeys keys)
              (toOriginalPropertyListList psList) (dstate w))
    as [[written err] s'] eqn:Hdrv.
  rewrite (originalClientBridgeImpl_GetMulti_run _ _ _ _ _ _ _ _ _ Hdrv).
  destruct err as [e|]; eexists _, _, _;
    (split; [reflexivity|]); (split; [|reflexivity]); [reflexivity|].
  unfold toWrapperPropertyListList, toOriginalPropertyListList.
  now rewrite length_map, length_fill_in_place, length_map.
Qed.

(** Each batch operation of the Original-Store Bridge returns after
    exactly one driver call, the operation of the same name on the
    client's handle, whether the driver fails or not. *)
Theorem original_store_bridge_single_call
    (drv : Driver) (ocb : originalClientBridgeImpl drv) (ctx0 : Context)
    (keys : list Key) (psList : list PropertyList) (w : World drv) :
  (exists r w',
      originalClientBridgeImpl_PutMulti ocb ctx0 keys psList w = (Ret r, w') /\
      trace w' = trace w ++ [CallClientPutMulti (client (d ocb))]) /\
  (exists r w',
      originalClientBridgeImpl_GetMulti ocb ctx0 keys psList w = (Ret r, w') /\
      trace w' = trace w ++ [CallClientGetMulti (client (d ocb))]) /\
  (exists r w',
      originalClientBridgeImpl_DeleteMulti ocb ctx0 keys w = (Ret r, w') /\
      trace w' = trace w ++ [CallClientDeleteMulti (client (d ocb))]).
Proof.
  split; [|split].
  - unfold originalClientBridgeImpl_PutMulti, bind, driver_call.
    destruct (client_PutMulti drv (client (d ocb)) ctx0 (toOriginalKeys keys)
                (toOriginalPropertyListList psList) (dstate w))
      as [[origKeys [e|]] s']; eexists _, _; split; reflexivity.
  - destruct (client_GetMulti drv (client (d ocb)) ctx0 (toOriginalKeys keys)
                (toOriginalPropertyListList psList) (dstate w))
      as [[written err] s'] eqn:Hdrv.
    rewrite (originalClientBridgeImpl_GetMulti_run _ _ _ _ _ _ _ _ _ Hdrv).
    eexists _, _; split; reflexivity.
  - unfold originalClientBridgeImpl_DeleteMulti, bind, driver_call.
    destruct (client_DeleteMulti drv (client (d ocb)) ctx0
                (toOriginalKeys keys) (dstate w)) as [[e|] s'];
      eexists _, _; split; reflexivity.
Qed.

(** ** Transaction Bridge *)

(** With a driver transaction [h] in the context, each operation of the
    Transaction Bridge returns after exactly one driver call, the
    operation of the same name on [h]: the bridge never commits, never
    rolls back and never goes to the client. *)
Theorem transaction_bridge_single_call
    (drv : Driver) (otb : originalTransactionBridgeImpl drv) (h : TxHandle)
    (keys : list Key) (psList : list PropertyList) (w : World drv) :
  getTx (ctx (tx_client (tx otb))) = Some h ->
  (exists r w',
      originalTransactionBridgeImpl_PutMulti otb keys psList w = (Ret r, w') /\
      trace w' = trace w ++ [CallTxPutMulti h]) /\
  (exists r w',
      originalTransactionBridgeImpl_GetMulti otb keys psList w = (Ret r, w') /\
      trace w' = trace w ++ [CallTxGetMulti h]) /\
  (exists r w',
      originalTransactionBridgeImpl_DeleteMulti otb keys w = (Ret r, w') /\
      trace w' = trace w ++ [CallTxDeleteMulti h]).
Proof.
  intros Htx. split; [|split].
  - unfold originalTransactionBridgeImpl_PutMulti, bind, on_tx, driver_call.
    rewrite Htx.
    destruct (tx_PutMulti drv h (toOriginalKeys keys)
                (toOriginalPropertyListList psList) (dstate w))
      as [[origPKeys [e|]] s']; eexists _, _; split; reflexivity.
  - destruct (tx_GetMulti drv h (toOriginalKeys keys)
                (toOriginalPropertyListList psList) (dstate w))
      as [[written err] s'] eqn:Hdrv.
    rewrite (originalTransactionBridgeImpl_GetMulti_run
               _ _ _ _ _ _ _ _ _ Htx Hdrv).
    eexists _, _; split; reflexivity.
  - unfold originalTransactionBridgeImpl_DeleteMulti, bind, on_tx, driver_call.
    rewrite Htx.
    destruct (tx_DeleteMulti drv h (toOriginalKeys keys) (dstate w))
      as [[e|] s']; eexists _, _; split; reflexivity.
Qed.

Lemma transaction_bridge_single_call_witness :
  let otb := {| tx := {| tx_client := Sample.tx_ctx_client |} |} in
  (exists r w',
      originalTransactionBridgeImpl_PutMulti otb
        [Sample.k1] [Sample.e1] Sample.w0 = (Ret r, w') /\
      trace w' = trace Sample.w0 ++ [CallTxPutMulti 5]) /\
  (exists r w',
      originalTransactionBridgeImpl_GetMulti otb
        [Sample.k1] [Sample.e1] Sample.w0 = (Ret r, w') /\
      trace w' = trace Sample.w0 ++ [CallTxGetMulti 5]) /\
  (exists r w',
      originalTransactionBridgeImpl_DeleteMulti otb
        [Sample.k1] Sample.w0 = (Ret r, w') /\
      trace w' = trace Sample.w0 ++ [CallTxDeleteMulti 5]).
Proof.
  intros otb.
  apply (transaction_bridge_single_call Sample.driver otb 5).
  reflexivity.
Defined.

(** [GetMulti] of the Transaction Bridge always returns, in a context
    with a transaction or without: the write-back loop stays in range
    and the caller's slice keeps its length. *)
Theorem originalTransactionBridgeImpl_GetMulti_returns
    (drv : Driver) (otb : originalTransactionBridgeImpl drv)
    (keys : list Key) (psList : list PropertyList) (w : World drv) :
  exists psList' err w',
    originalTransactionBridgeImpl_GetMulti otb keys psList w
      = (Ret (psList', err), w') /\
    length psList' = length psList.
Proof.
  destruct (getTx (ctx (tx_client (tx otb)))) as [h|] eqn:Htx.
  - destruct (tx_GetMulti drv h (toOriginalKeys keys)
                (toOriginalPropertyListList psList) (dstate w))
      as [[written err] s'] eqn:Hdrv.
    rewrite (originalTransactionBridgeImpl_GetMulti_run
               _ _ _ _ _ _ _ _ _ Htx Hdrv).
    destruct err as [e|]; eexists _, _, _; (split; [reflexivity|]);
      [reflexivity|].
    unfold toWrapperPropertyListList, toOriginalPropertyListList.
    now rewrite length_map, length_fill_in_place, length_map.
  - unfold originalTransactionBridgeImpl_GetMulti. rewrite Htx.
    eexists _, _, _. split; reflexivity.
Qed.

(** [PutMulti] returns keys only without an error, through either
    bridge: whenever the Original-Store Bridge returns an error its keys
    are nil, and whenever the Transaction Bridge returns an error its
    pending keys are nil. *)
Theorem PutMulti_error_returns_no_keys (drv : Driver) :
  (forall (ocb : originalClientBridgeImpl drv) ctx0 keys psList w wKeys e w',
      originalClientBridgeImpl_PutMulti ocb ctx0 keys psList w
        = (Ret (wKeys, Some e), w') ->
      wKeys = []) /\
  (forall (otb : originalTransactionBridgeImpl drv) keys psList w pKeys e w',
      originalTransactionBridgeImpl_PutMulti otb keys psList w
        = (Ret (pKeys, Some e), w') ->
      pKeys = []).
Proof.
  split.
  - intros ocb ctx0 keys psList w wKeys e w'.
    unfold originalClientBridgeImpl_PutMulti, bind, driver_call.
    destruct (client_PutMulti drv (client (d ocb)) ctx0 (toOriginalKeys keys)
                (toOriginalPropertyListList psList) (dstate w))
      as [[origKeys [e0|]] s']; simpl; intros Hrun.
    + now injection Hrun as <- _ _.
    + discriminate.
  - intros otb keys psList w pKeys e w'.
    unfold originalTransactionBridgeImpl_PutMulti, bind, on_tx, driver_call.
    destruct (getTx (ctx (tx_client (tx otb)))) as [h|].
    + destruct (tx_PutMulti drv h (toOriginalKeys keys)
                  (toOriginalPropertyListList psList) (dstate w))
        as [[origPKeys [e0|]] s']; simpl; intros Hrun.
      * now injection Hrun as <- _ _.
      * discriminate.
    + intros Hrun. now injection Hrun as <- _ _.
Qed.

Lemma PutMulti_error_returns_no_keys_witness :
  @nil PendingKey = [].
Proof.
  apply (proj2 (PutMulti_error_returns_no_keys Sample.driver)
           {| tx := {| tx_client := Sample.plain_client |} |}
           [Sample.k1] [Sample.e1] Sample.w0 []
           (ErrNew "unexpected context") Sample.w0).
  reflexivity.
Defined.

(** ** Queries and iterators *)

(** [Run], [GetAll] and [Next] assert the package's own implementation
    without a check: a query or an iterator of another implementation
    makes them panic, before anything reaches the driver. *)
Theorem foreign_implementation_panics
    (drv : Driver) (ocb : originalClientBridgeImpl drv) (ctx0 : Context)
    (psList : list PropertyList) (ps : PropertyList) (w : World drv) :
  originalClientBridgeImpl_Run ocb ctx0 QueryForeign w
    = (Panic TypeAssertion, w) /\
  originalClientBridgeImpl_GetAll ocb ctx0 QueryForeign psList w
    = (Panic TypeAssertion, w) /\
  originalIteratorBridgeImpl_Next (@IteratorForeign drv) ps w
    = (Panic TypeAssertion, w).
Proof. repeat split. Qed.

(** [Run] opens a driver cursor for every query of the package, also for
    one that carries a build failure: the driver's [Run] is called once
    with the query, and the iterator holds the cursor it returned, the
    bridge's client, the query and the query's first error. *)
Theorem Run_opens_cursor
    (drv : Driver) (ocb : originalClientBridgeImpl drv) (ctx0 : Context)
    (qImpl : queryImpl) (w : World drv) :
  exists iterImpl w',
    originalClientBridgeImpl_Run ocb ctx0 (QueryImpl qImpl) w
      = (Ret (IteratorImpl iterImpl), w') /\
    trace w' = trace w ++ [CallClientRun (client (d ocb))] /\
    (t iterImpl, dstate w')
      = client_Run drv (client (d ocb)) ctx0 (q qImpl) (dstate w) /\
    it_client iterImpl = d ocb /\
    it_q iterImpl = qImpl /\
    firstError iterImpl = q_firstError qImpl.
Proof.
  unfold originalClientBridgeImpl_Run, bind, driver_call, ret.
  destruct (client_Run drv (client (d ocb)) ctx0 (q qImpl) (dstate w))
    as [iter s'].
  eexists _, _. repeat split.
Qed.

(** [GetAll] replaces the caller's list: on success the keys and the
    property lists returned are the driver's, translated slot by slot, so
    they have the driver's lengths whatever the caller passed in; on a
    driver error the keys are nil and the caller's list is as it was. *)
Theorem GetAll_result
    (drv : Driver) (ocb : originalClientBridgeImpl drv) (ctx0 : Context)
    (qImpl : queryImpl) (psList : list PropertyList) (w : World drv)
    (origKeys : list OKey) (origPss : list OPropertyList)
    (err : option oerror) (s' : DState drv) :
  client_GetAll drv (client (d ocb)) ctx0 (q qImpl)
    (toOriginalPropertyListList psList) (dstate w)
    = (origKeys, origPss, err, s') ->
  exists wKeys psList' werr,
    originalClientBridgeImpl_GetAll ocb ctx0 (QueryImpl qImpl) psList w
      = (Ret (wKeys, psList', werr),
         {| dstate := s';
            trace := trace w ++ [CallClientGetAll (client (d ocb))] |}) /\
    match err with
    | Some e =>
        wKeys = [] /\ psList' = psList /\ werr = Some (toWrapperError e)
    | None =>
        werr = None /\
        length wKeys = length origKeys /\
        length psList' = length origPss /\
        forall i,
          wKeys !! i = toWrapperKey <$> origKeys !! i /\
          psList' !! i = toWrapperPropertyList <$> origPss !! i
    end.
Proof.
  intros Hdrv.
  unfold originalClientBridgeImpl_GetAll, bind, driver_call.
  rewrite Hdrv. destruct err as [e|]; simpl.
  - eexists _, _, _. split; [reflexivity|]. repeat split.
  - eexists _, _, _. split; [reflexivity|].
    unfold toWrapperKeys, toWrapperPropertyListList.
    rewrite !length_map. repeat split; apply lookup_map.
Qed.

Lemma GetAll_result_witness :
  exists wKeys psList' werr,
    originalClientBridgeImpl_GetAll {| d := Sample.plain_client |} []
      (QueryImpl Sample.book_query) [] Sample.w0
      = (Ret (wKeys, psList', werr),
         @Build_World Sample.driver Sample.s0 [CallClientGetAll 1]) /\
    (werr = None /\
     length wKeys = 2 /\
     length psList' = 2 /\
     forall i,
       wKeys !! i
         = toWrapperKey <$>
             [toOriginalKey Sample.k1; toOriginalKey Sample.k2] !! i /\
       psList' !! i
         = toWrapperPropertyList <$>
             [toOriginalPropertyList Sample.e1;
              toOriginalPropertyList Sample.e2] !! i).
Proof.
  apply (GetAll_result Sample.driver {| d := Sample.plain_client |} []
           Sample.book_query [] Sample.w0
           [toOriginalKey Sample.k1; toOriginalKey Sample.k2]
           [toOriginalPropertyList Sample.e1; toOriginalPropertyList Sample.e2]
           None Sample.s0).
  reflexivity.
Defined.

(** [Next] of the Iterator Bridge hands the cursor the buffer by value:
    whatever the cursor does, the caller's buffer keeps its number of
    properties; and when [Next] returns an error, the key is nil and the
    buffer is exactly as it was. *)
Theorem Next_keeps_buffer_length
    (drv : Driver) (iter : Iterator drv) (ps : PropertyList) (w : World drv)
    (k : option Key) (ps' : PropertyList) (err : error) (w' : World drv) :
  originalIteratorBridgeImpl_Next iter ps w = (Ret (k, ps', err), w') ->
  length ps' = length ps /\
  (err <> None -> k = None /\ ps' = ps).
Proof.
  destruct iter as [iterImpl|]; [|discriminate].
  unfold originalIteratorBridgeImpl_Next, bind, driver_call.
  destruct (cursor_Next drv (t iterImpl) (toOriginalPropertyList ps) (dstate w))
    as [[[origKey written] [e|]] s']; simpl; intros Hrun.
  - injection Hrun as <- <- _ _. now split.
  - injection Hrun as _ <- <- _. split; [|congruence].
    unfold toWrapperPropertyList, toOriginalPropertyList.
    now rewrite length_map, length_fill_in_place, length_map.
Qed.

Lemma Next_keeps_buffer_length_witness :
  length Sample.e1 = length Sample.stale /\
  (@None werror <> None -> Some Sample.k1 = None /\ Sample.e1 = Sample.stale).
Proof.
  apply (Next_keeps_buffer_length Sample.driver
           (IteratorImpl Sample.book_iterator) Sample.stale Sample.w0
           (Some Sample.k1) Sample.e1 None
           (@Build_World Sample.driver
              {| Sample.store := Sample.store Sample.s0;
                 Sample.cursors :=
                   [ [ (toOriginalKey Sample.k2,
                        toOriginalPropertyList Sample.e2) ] ];
                 Sample.pending := [] |}
              [CallCursorNext 0])).
  reflexivity.
Defined.

(** ** Commit and Rollback *)

(** [Commit] on a non-nil transaction always returns, never a [Commit]
    together with an error.  With a driver transaction [h] in the context
    it calls the driver's [Commit] on [h] exactly once and returns a
    [Commit] exactly when the driver reported no error; without one it
    leaves the world as it was. *)
Theorem Commit_result
    (drv : Driver) (tx0 : transactionImpl drv) (w : World drv) :
  exists c err w',
    transactionImpl_Commit (Some tx0) w = (Ret (c, err), w') /\
    (c = None \/ err = None) /\
    match getTx (ctx (tx_client tx0)) with
    | Some h =>
        trace w' = trace w ++ [CallTxCommit h] /\
        dstate w' = snd (tx_Commit drv h (dstate w)) /\
        (c <> None <-> snd (fst (tx_Commit drv h (dstate w))) = None) /\
        err = option_map toWrapperError (snd (fst (tx_Commit drv h (dstate w))))
    | None => w' = w /\ c = None /\ err = None
    end.
Proof.
  unfold transactionImpl_Commit, bind, deref, ret, on_tx, driver_call. simpl.
  destruct (getTx (ctx (tx_client tx0))) as [h|].
  - destruct (tx_Commit drv h (dstate w)) as [[commit0 [e|]] s']; simpl;
      eexists _, _, _; (split; [reflexivity|]); simpl.
    + split; [now left|]. repeat split; intros; congruence.
    + split; [now right|]. repeat split; intros; congruence.
  - eexists _, _, _. split; [reflexivity|]. split; [now left|]. now repeat split.
Qed.

(** [Rollback] has no no-op return: whenever it returns, on whatever
    receiver, the receiver was non-nil, its context carried a driver
    transaction [h], the driver's [Rollback] was called on [h] exactly
    once, and the error returned is the driver's, normalized. *)
Theorem Rollback_returns_only_through_driver
    (drv : Driver) (tx0 : option (transactionImpl drv)) (w : World drv)
    (err : error) (w' : World drv) :
  transactionImpl_Rollback tx0 w = (Ret err, w') ->
  exists this h,
    tx0 = Some this /\
    getTx (ctx (tx_client this)) = Some h /\
    w' = {| dstate := snd (tx_Rollback drv h (dstate w));
            trace := trace w ++ [CallTxRollback h] |} /\
    err = option_map toWrapperError (fst (tx_Rollback drv h (dstate w))).
Proof.
  destruct tx0 as [this|]; [|discriminate].
  unfold transactionImpl_Rollback, bind, deref, ret, on_tx, driver_call. simpl.
  destruct (getTx (ctx (tx_client this))) as [h|] eqn:Htx; [|discriminate].
  destruct (tx_Rollback drv h (dstate w)) as [[e|] s'] eqn:Hdrv; simpl;
    intros Hrun; injection Hrun as <- <-; exists this, h;
    (split; [reflexivity|]); (split; [exact Htx|]);
    rewrite Hdrv; split; reflexivity.
Qed.

Lemma Rollback_returns_only_through_driver_witness :
  exists this h,
    Some {| tx_client := Sample.tx_ctx_client |} = Some this /\
    getTx (ctx (tx_client this)) = Some h /\
    @Build_World Sample.driver Sample.s0 [CallTxRollback 5]
    = {| dstate := snd (tx_Rollback Sample.driver h (dstate Sample.w0));
         trace := trace Sample.w0 ++ [CallTxRollback h] |} /\
    None = option_map toWrapperError
             (fst (tx_Rollback Sample.driver h (dstate Sample.w0))).
Proof.
  apply (Rollback_returns_only_through_driver Sample.driver
           (Some {| tx_client := Sample.tx_ctx_client |}) Sample.w0).
  reflexivity.
Defined.

(** ** The single-item operations at the edges *)

(** [PutMulti] and [Put] of a transaction never return a pending key
    together with an error, whatever [shared.PutMultiOps] returned. *)
Theorem transactional_Put_error_returns_no_key
    (drv : Driver) (shared : SharedOps drv) (tx0 : transactionImpl drv) :
  (forall keys src w pKeys e w',
      transactionImpl_PutMulti shared tx0 keys src w
        = (Ret (pKeys, Some e), w') ->
      pKeys = []) /\
  (forall key src w pKey e w',
      transactionImpl_Put shared tx0 key src w = (Ret (pKey, Some e), w') ->
      pKey = None).
Proof.
  split.
  - intros keys src w pKeys e w'.
    unfold transactionImpl_PutMulti, bind, ret.
    destruct (PutMultiOps shared _ keys src _ w)
      as [[[[wKeys pKeys0] [e0|]]|p] w1]; intros Hrun; try discriminate.
    now injection Hrun as <- _ _.
  - intros key src w pKey e w'.
    unfold transactionImpl_Put, bind, lift, ret.
    destruct (transactionImpl_PutMulti shared tx0 [key] (GoSlice [src]) w)
      as [[[pKeys [e0|]]|p] w1]; try discriminate.
    + destruct e0 as [| | |[|slot rest]| |]; intros Hrun;
        try discriminate; now injection Hrun as <- _ _.
    + destruct pKeys; discriminate.
Qed.

Lemma transactional_Put_error_returns_no_key_witness :
  @nil PendingKey = [] /\ @None PendingKey = None.
Proof.
  pose proof (transactional_Put_error_returns_no_key Sample.driver Sample.ops
                {| tx_client := Sample.plain_client |}) as [HMulti HPut].
  split.
  - apply (HMulti [Sample.k1] (GoSlice [GoEntity Sample.e1]) Sample.w0 []
             (ErrNew "unexpected context") Sample.w0).
    reflexivity.
  - apply (HPut Sample.k1 (GoEntity Sample.e1) Sample.w0 None
             (ErrNew "unexpected context") Sample.w0).
    reflexivity.
Defined.

(** The single-item operations look at slot 0 only, nil or not: when the
    batch operation fails with a [MultiError] whose slot 0 is nil, [Get]
    and [Delete] return a nil error and [Put] returns neither a pending
    key nor an error. *)
Theorem MultiError_nil_slot0_is_returned
    (drv : Driver) (shared : SharedOps drv) (tx0 : transactionImpl drv) :
  (forall key dst w rest w',
      transactionImpl_GetMulti shared tx0 [key] (GoSlice [dst]) w
        = (Ret (Some (MultiError (None :: rest))), w') ->
      transactionImpl_Get shared tx0 key dst w = (Ret None, w')) /\
  (forall key src w pKeys rest w',
      transactionImpl_PutMulti shared tx0 [key] (GoSlice [src]) w
        = (Ret (pKeys, Some (MultiError (None :: rest))), w') ->
      transactionImpl_Put shared tx0 key src w = (Ret (None, None), w')) /\
  (forall key w rest w',
      transactionImpl_DeleteMulti shared tx0 [key] w
        = (Ret (Some (MultiError (None :: rest))), w') ->
      transactionImpl_Delete shared tx0 key w = (Ret None, w')).
Proof.
  split; [|split].
  - intros key dst w rest w' Hmulti.
    unfold transactionImpl_Get, bind. now rewrite Hmulti.
  - intros key src w pKeys rest w' Hmulti.
    unfold transactionImpl_Put, bind, lift, ret. now rewrite Hmulti.
  - intros key w rest w' Hmulti.
    unfold transactionImpl_Delete, bind. now rewrite Hmulti.
Qed.

Lemma MultiError_nil_slot0_is_returned_witness :
  let nil_slot := Some (MultiError [None]) in
  let shared := Stub.ops nil_slot [] nil_slot nil_slot in
  let tx0 := {| tx_client := Sample.tx_ctx_client |} in
  transactionImpl_Get shared tx0 Sample.k1 (GoEntity []) Sample.w0
    = (Ret None, Sample.w0) /\
  transactionImpl_Put shared tx0 Sample.k1 (GoEntity Sample.e1) Sample.w0
    = (Ret (None, None), Sample.w0) /\
  transactionImpl_Delete shared tx0 Sample.k1 Sample.w0
    = (Ret None, Sample.w0).
Proof.
  intros nil_slot shared tx0.
  pose proof (MultiError_nil_slot0_is_returned Sample.driver shared tx0)
    as (HGet & HPut & HDelete).
  split; [|split].
  - apply (HGet Sample.k1 (GoEntity []) Sample.w0 []). reflexivity.
  - apply (HPut Sample.k1 (GoEntity Sample.e1) Sample.w0 [] []). reflexivity.
  - apply (HDelete Sample.k1 Sample.w0 []). reflexivity.
Defined.

(** Slot 0 is read by indexing, without a length test: a [MultiError]
    with no slot makes [Get], [Put] and [Delete] panic with an index out
    of range, and so does a successful [PutMulti] that returned no
    pending key. *)
Theorem single_item_operations_index_panics
    (drv : Driver) (shared : SharedOps drv) (tx0 : transactionImpl drv) :
  (forall key dst w w',
      transactionImpl_GetMulti shared tx0 [key] (GoSlice [dst]) w
        = (Ret (Some (MultiError [])), w') ->
      transactionImpl_Get shared tx0 key dst w
        = (Panic IndexOutOfRange, w')) /\
  (forall key src w pKeys w',
      transactionImpl_PutMulti shared tx0 [key] (GoSlice [src]) w
        = (Ret (pKeys, Some (MultiError [])), w') ->
      transactionImpl_Put shared tx0 key src w
        = (Panic IndexOutOfRange, w')) /\
  (forall key src w w',
      transactionImpl_PutMulti shared tx0 [key] (GoSlice [src]) w
        = (Ret ([], None), w') ->
      transactionImpl_Put shared tx0 key src w
        = (Panic IndexOutOfRange, w')) /\
  (forall key w w',
      transactionImpl_DeleteMulti shared tx0 [key] w
        = (Ret (Some (MultiError [])), w') ->
      transactionImpl_Delete shared tx0 key w
        = (Panic IndexOutOfRange, w')).
Proof.
  repeat split.
  - intros key dst w w' Hmulti.
    unfold transactionImpl_Get, bind. now rewrite Hmulti.
  - intros key src w pKeys w' Hmulti.
    unfold transactionImpl_Put, bind, lift, ret. now rewrite Hmulti.
  - intros key src w w' Hmulti.
    unfold transactionImpl_Put, bind, lift, ret. now rewrite Hmulti.
  - intros key w w' Hmulti.
    unfold transactionImpl_Delete, bind. now rewrite Hmulti.
Qed.

Lemma single_item_operations_index_panics_witness :
  let no_slot := Some (MultiError []) in
  let tx0 := {| tx_client := Sample.tx_ctx_client |} in
  transactionImpl_Get (Stub.ops no_slot [] no_slot no_slot) tx0
    Sample.k1 (GoEntity []) Sample.w0
    = (Panic IndexOutOfRange, Sample.w0) /\
  transactionImpl_Put (Stub.ops no_slot [] no_slot no_slot) tx0
    Sample.k1 (GoEntity Sample.e1) Sample.w0
    = (Panic IndexOutOfRange, Sample.w0) /\
  transactionImpl_Put (Stub.ops None [] None None) tx0
    Sample.k1 (GoEntity Sample.e1) Sample.w0
    = (Panic IndexOutOfRange, Sample.w0) /\
  transactionImpl_Delete (Stub.ops no_slot [] no_slot no_slot) tx0
    Sample.k1 Sample.w0
    = (Panic IndexOutOfRange, Sample.w0).
Proof.
  intros no_slot tx0.
  pose proof (single_item_operations_index_panics Sample.driver
                (Stub.ops no_slot [] no_slot no_slot) tx0)
    as (HGet & HPut & _ & HDelete).
  pose proof (single_item_operations_index_panics Sample.driver
                (Stub.ops None [] None None) tx0)
    as (_ & _ & HPutNone & _).
  split; [|split; [|split]].
  - apply (HGet Sample.k1 (GoEntity []) Sample.w0). reflexivity.
  - apply (HPut Sample.k1 (GoEntity Sample.e1) Sample.w0 []). reflexivity.
  - apply (HPutNone Sample.k1 (GoEntity Sample.e1) Sample.w0). reflexivity.
  - apply (HDelete Sample.k1 Sample.w0). reflexivity.
Defined.

(** ** The context *)

(** [getTx] finds the transaction added to the context last: entries
    that are not transactions are looked through, and it is nil exactly
    when the context holds no transaction at all. *)
Theorem getTx_innermost_transaction (c : Context) :
  (getTx c = None <-> Forall (fun e => forall h, e <> contextTransaction h) c) /\
  (forall h,
      getTx c = Some h <->
      exists outer inner,
        c = outer ++ contextTransaction h :: inner /\
        Forall (fun e => forall h', e <> contextTransaction h') outer).
Proof.
  rewrite getTx_Value. induction c as [|e c [IHnone IHsome]].
  - split.
    + split; [constructor|reflexivity].
    + intros h. split; [discriminate|].
      intros (outer & inner & Heq & _). now destruct outer.
  - destruct e as [h0|k v]; simpl.
    + split.
      * split; [discriminate|].
        intros Hall. inversion Hall as [|? ? He _]. now destruct (He h0).
      * intros h. split.
        -- intros [= ->]. exists [], c. split; [reflexivity|constructor].
        -- intros (outer & inner & Heq & Hall).
           destruct outer as [|o outer]; simpl in Heq.
           ++ now injection Heq as ->.
           ++ injection Heq as <- _. inversion Hall as [|? ? He _].
              now destruct (He h0).
    + split.
      * rewrite IHnone. split.
        -- intros Hall. constructor; [discriminate|exact Hall].
        -- intros Hall. now inversion Hall.
      * intros h. rewrite IHsome. split.
        -- intros (outer & inner & -> & Hall).
           exists (contextOther k v :: outer), inner. split; [reflexivity|].
           constructor; [discriminate|exact Hall].
        -- intros (outer & inner & Heq & Hall).
           destruct outer as [|o outer]; simpl in Heq; [discriminate|].
           injection Heq as _ ->. exists outer, inner.
           split; [reflexivity|]. now inversion Hall.
Qed.

(** ** Client construction *)

Lemma newClientSettings_globals
    (pf : Platform) (opts : list ClientOption) (g : Globals) :
  snd (newClientSettings pf opts g)
  = match projectID g with
    | Some _ => g
    | None =>
        {| projectID :=
             Some (match snd (metadata_ProjectID pf) with
                   | Some _ => internal_GetProjectID pf
                   | None => fst (metadata_ProjectID pf)
                   end);
           metadata_lookups := S (metadata_lookups g) |}
    end.
Proof.
  unfold newClientSettings.
  destruct (projectID g); [reflexivity|].
  now destruct (metadata_ProjectID pf) as [pID [e|]].
Qed.

(** The project is looked up at the metadata server at most once: after
    any call of [newClientSettings] the package variable is set, to the
    fallback of [internal.GetProjectID] when the lookup failed, and over
    any further calls it stays as it is and no lookup is made. *)
Theorem newClientSettings_looks_up_once
    (pf : Platform) (opts : list ClientOption) (g : Globals)
    (later : list (list ClientOption)) :
  let g1 := snd (newClientSettings pf opts g) in
  (exists p, projectID g1 = Some p) /\
  (projectID g = None ->
   projectID g1
   = Some (match snd (metadata_ProjectID pf) with
           | Some _ => internal_GetProjectID pf
           | None => fst (metadata_ProjectID pf)
           end)) /\
  metadata_lookups g1 <= S (metadata_lookups g) /\
  fold_left (fun g' opts' => snd (newClientSettings pf opts' g')) later g1 = g1.
Proof.
  intros g1. subst g1. rewrite newClientSettings_globals.
  assert (forall g0 p, projectID g0 = Some p ->
            fold_left (fun g' opts' => snd (newClientSettings pf opts' g'))
              later g0 = g0) as Hstable.
  { induction later as [|o later IH]; intros g0 p Hp; [reflexivity|].
    simpl. rewrite newClientSettings_globals, Hp. now apply (IH g0 p). }
  destruct (projectID g) as [p|] eqn:Hg.
  - split; [eauto|]. split; [discriminate|]. split; [lia|].
    now apply (Hstable g p).
  - split; [simpl; eauto|]. split; [reflexivity|]. split; [simpl; lia|].
    now eapply Hstable.
Qed.

Lemma newClientSettings_looks_up_once_witness :
  let g1 := snd (newClientSettings Stub.offline [] Stub.fresh) in
  (exists p, projectID g1 = Some p) /\
  (projectID Stub.fresh = None -> projectID g1 = Some "local-project") /\
  metadata_lookups g1 <= 1 /\
  fold_left (fun g' opts' => snd (newClientSettings Stub.offline opts' g'))
    [[]; [Stub.withProjectID "other"]] g1 = g1.
Proof.
  apply (newClientSettings_looks_up_once Stub.offline [] Stub.fresh
           [[]; [Stub.withProjectID "other"]]).
Defined.

(** The options are applied from first to last on top of the looked-up
    project, so an option given later has the last word. *)
Theorem newClientSettings_applies_options_in_order
    (pf : Platform) (opts : list ClientOption) (opt : ClientOption)
    (g : Globals) :
  fst (newClientSettings pf (opts ++ [opt]) g)
    = opt (fst (newClientSettings pf opts g)) /\
  forall p, projectID g = Some p ->
    fst (newClientSettings pf [] g)
    = {| ProjectID := p; Scopes := []; TokenSource := None;
         CredentialsFile := ""; HTTPClient := None |}.
Proof.
  unfold newClientSettings. split.
  - destruct (projectID g) as [p|]; simpl.
    + now rewrite fold_left_app.
    + destruct (metadata_ProjectID pf) as [pID [e|]]; simpl;
        now rewrite fold_left_app.
  - intros p ->. reflexivity.
Qed.

Lemma newClientSettings_applies_options_in_order_witness :
  let g := {| projectID := Some "detected"; metadata_lookups := 1 |} in
  fst (newClientSettings Stub.offline
         ([Stub.withProjectID "first"] ++ [Stub.withProjectID "second"]) g)
    = Stub.withProjectID "second"
        (fst (newClientSettings Stub.offline [Stub.withProjectID "first"] g)) /\
  forall p, projectID g = Some p ->
    fst (newClientSettings Stub.offline [] g)
    = {| ProjectID := p; Scopes := []; TokenSource := None;
         CredentialsFile := ""; HTTPClient := None |}.
Proof.
  intros g.
  apply (newClientSettings_applies_options_in_order Stub.offline
           [Stub.withProjectID "first"] (Stub.withProjectID "second") g).
Defined.

(** [FromContext] hands the driver one option per configured setting and
    nothing else: scopes when there are some, the token source and the
    HTTP client when they are not nil, the credentials file when it is
    not empty; so at most four options, and none for the settings left
    at their zero value. *)
Theorem FromContext_origOpts_configured (settings : ClientSettings) :
  (forall o,
      In o (FromContext_origOpts settings) <->
      match o with
      | WithScopes sc => sc = Scopes settings /\ sc <> []
      | WithTokenSource ts => TokenSource settings = Some ts
      | WithCredentialsFile f => f = CredentialsFile settings /\ f <> ""
      | WithHTTPClient c => HTTPClient settings = Some c
      end) /\
  length (FromContext_origOpts settings) <= 4.
Proof.
  destruct settings as [p sc ts f c]. unfold FromContext_origOpts. simpl.
  split.
  - intros o.
    destruct sc as [|s0 sc], ts as [ts|], f as [|a f], c as [c|];
      simpl; destruct o; simpl; split; intros H;
      repeat match goal with
             | H : _ \/ _ |- _ => destruct H
             | H : _ /\ _ |- _ => destruct H
             | H : False |- _ => destruct H
             end;
      try discriminate; try congruence; subst;
      try (injection H as ?; subst); auto 10.
  - destruct sc, ts, f, c; simpl; lia.
Qed.

(** [FromContext] returns exactly one of a client and an error, and looks
    the project up as [newClientSettings] does.  The client it returns
    holds the caller's context, so it is in a transaction exactly when
    the caller's context is, and it has no cache layer; the error is the
    driver's own. *)
Theorem FromContext_result
    (drv : Driver) (pf : Platform) (ctx0 : Context)
    (opts : list ClientOption) (g : Globals) :
  exists c err,
    FromContext drv pf ctx0 opts g
      = (c, err, snd (newClientSettings pf opts g)) /\
    (c = None <-> err <> None) /\
    err = snd (datastore_NewClient pf ctx0
                 (ProjectID (fst (newClientSettings pf opts g)))
                 (FromContext_origOpts (fst (newClientSettings pf opts g)))) /\
    forall cl, c = Some cl ->
      ctx cl = ctx0 /\
      cacheStrategies cl = [] /\
      getTx (ctx cl) = getTx ctx0.
Proof.
  unfold FromContext.
  destruct (newClientSettings pf opts g) as [settings g1]. simpl.
  destruct (datastore_NewClient pf ctx0 (ProjectID settings)
              (FromContext_origOpts settings)) as [client0 [e|]]; simpl;
    eexists _, _; (split; [reflexivity|]); split.
  - split; [discriminate|reflexivity].
  - split; [reflexivity|]. discriminate.
  - split; [discriminate|]. intros H. now destruct H.
  - split; [reflexivity|]. intros cl [= <-]. now repeat split.
Qed.
